(** * extract5.py: article ingestion, normalisation and query glue

    A shallow embedding of [src/extract5.py].  The script fetches article
    identifiers and records from a remote service, turns each XML record
    into a flat metadata object and a plain-text body, writes one JSON
    line per kept article, and later joins ranked search hits with the
    stored lines.

    Conventions of the embedding:
    - a Python [str] is a [string]; every [ascii] stands for the code
      point with the same number (0..255);
    - [None] is [None] of an [option];
    - an exception is the [Raise] case of [Result];
    - the console, the clock and the collection file are fields of an
      explicit [World] that the stateful functions thread along. *)

From Stdlib Require Import String Ascii List ZArith QArith Bool Lia.
From stdpp Require Import base option gmap strings.
Import ListNotations.

Set Warnings "-register-all".

Local Open Scope string_scope.
Local Open Scope list_scope.

(** ** Python strings *)

Module Py.

Definition nl : string := String "010"%char "".

(** Truth value of a [str]: non-empty. *)
Definition truthy (s : string) : bool :=
  match s with "" => false | _ => true end.

(** Truth value of an attribute that is [None] or a [str]. *)
Definition truthy_opt (o : option string) : bool :=
  match o with Some s => truthy s | None => false end.

(** [str(x)] as an f-string renders it, for [x] a [str] or [None]. *)
Definition format (o : option string) : string :=
  match o with Some s => s | None => "None" end.

(** [str.isspace] on one code point below 256. *)
Definition isspace (c : ascii) : bool :=
  let n := nat_of_ascii c in
  (((9 <=? n) && (n <=? 13)) || ((28 <=? n) && (n <=? 32))
   || (n =? 133) || (n =? 160))%nat.

Fixpoint lstrip (s : string) : string :=
  match s with
  | "" => ""
  | String c s' => if isspace c then lstrip s' else s
  end.

Fixpoint rstrip (s : string) : string :=
  match s with
  | "" => ""
  | String c s' =>
      match rstrip s' with
      | "" => if isspace c then "" else String c ""
      | r => String c r
      end
  end.

Definition strip (s : string) : string := rstrip (lstrip s).

(** [sep.join(parts)]. *)
Fixpoint join (sep : string) (parts : list string) : string :=
  match parts with
  | [] => ""
  | [p] => p
  | p :: ps => p +:+ sep +:+ join sep ps
  end.

Fixpoint startswith (p s : string) : bool :=
  match p, s with
  | "", _ => true
  | String a p', String b s' => Ascii.eqb a b && startswith p' s'
  | _, "" => false
  end.

(** [needle in hay] for two [str]. *)
Fixpoint contains (needle hay : string) : bool :=
  startswith needle hay
  || match hay with
     | "" => false
     | String _ hay' => contains needle hay'
     end.

End Py.

(** ** The XML tree of [xml.etree.ElementTree]

    Only what the script reads: the tag, the text before the first child
    ([None] when there is none) and the children in document order. *)

Inductive Element : Type :=
  Elem { tag : string; text : option string; children : list Element }.

Module ET.

(** [e.iter()]: [e] and everything below it, in document order. *)
Fixpoint iter (e : Element) : list Element :=
  match e with
  | Elem _ _ cs => e :: flat_map iter cs
  end.

(** The elements a path [.//...] ranges over: all levels beneath [e],
    [e] itself excluded. *)
Definition descendants (e : Element) : list Element :=
  flat_map iter (children e).

Definition has_tag (t : string) (e : Element) : bool := String.eqb (tag e) t.

(** [e.findall(".//t")] *)
Definition findall_desc (t : string) (e : Element) : list Element :=
  List.filter (has_tag t) (descendants e).

(** [e.find(".//t")] *)
Definition find_desc (t : string) (e : Element) : option Element :=
  head (findall_desc t e).

(** [e.findall("t")] *)
Definition findall (t : string) (e : Element) : list Element :=
  List.filter (has_tag t) (children e).

(** [e.find("t")] *)
Definition find (t : string) (e : Element) : option Element :=
  head (findall t e).

End ET.

(** ** Exceptions and results

    A Python call either returns or raises; [Unmodelled] marks the few
    inputs about which the embedding says nothing (a number literal or a
    code point above 255 in JSON text), and [FuelExhausted] the end of
    the decoder's recursion budget. *)

Inductive Exn : Type :=
| RequestException
| ParseError
| JSONDecodeError
| KeyError
| TypeError
| FileNotFoundError
| OSError
| SearchFailure
| Unmodelled
| FuelExhausted.

Inductive Result (A : Type) : Type :=
| Return (a : A)
| Raise (e : Exn).

Arguments Return {A} a.
Arguments Raise {A} e.

#[global] Instance Result_bind : MBind Result := fun A B k r =>
  match r with
  | Return a => k a
  | Raise e => Raise e
  end.

#[global] Instance Result_ret : MRet Result := fun A a => Return a.

(** ** The [json] module, as far as the script uses it

    [dumps] and [loads] follow the encoder and the decoder of the
    standard library on the values the script handles: [None], [bool],
    [str], [list] and [dict] with [str] keys.  Numbers are left out. *)

Module json.

(** A decoded JSON text: [None], [bool], [str], [list], [dict].  A
    [dict] keeps its items in insertion order. *)
Inductive value : Type :=
| JNull
| JBool (b : bool)
| JStr (s : string)
| JArr (items : list value)
| JObj (pairs : list (string * value)).

Definition dquote : ascii := "034"%char.
Definition backslash : ascii := "092"%char.

(** *** Encoder: [json.dumps] with its defaults
    ([ensure_ascii=True], separators [", "] and [": "]). *)

Definition hex_digit (n : nat) : ascii :=
  match String.get n "0123456789abcdef" with
  | Some c => c
  | None => "0"%char
  end.

(** One character of [encode_basestring_ascii]: the short escapes of
    [ESCAPE_DCT], printable ASCII as it is, anything else as a
    [\uXXXX] escape. *)
Definition escape_char (c : ascii) : string :=
  let n := nat_of_ascii c in
  if Ascii.eqb c dquote then String backslash (String dquote "")
  else if Ascii.eqb c backslash then String backslash (String backslash "")
  else if (n =? 8)%nat then String backslash "b"
  else if (n =? 12)%nat then String backslash "f"
  else if (n =? 10)%nat then String backslash "n"
  else if (n =? 13)%nat then String backslash "r"
  else if (n =? 9)%nat then String backslash "t"
  else if ((32 <=? n) && (n <=? 126))%nat then String c ""
  else String backslash
         (String "u" (String "0" (String "0"
            (String (hex_digit (n / 16)) (String (hex_digit (n mod 16)) ""))))).

Fixpoint escape (s : string) : string :=
  match s with
  | "" => ""
  | String c s' => escape_char c +:+ escape s'
  end.

Definition encode_basestring_ascii (s : string) : string :=
  String dquote (escape s +:+ String dquote "").

Fixpoint dumps (v : value) : string :=
  match v with
  | JNull => "null"
  | JBool true => "true"
  | JBool false => "false"
  | JStr s => encode_basestring_ascii s
  | JArr items => "[" +:+ Py.join ", " (map dumps items) +:+ "]"
  | JObj pairs =>
      "{" +:+ Py.join ", "
               (map (fun kv => encode_basestring_ascii (fst kv) +:+ ": " +:+ dumps (snd kv))
                    pairs)
          +:+ "}"
  end.

(** *** Decoder: [json.loads] *)

(** [WHITESPACE]: space, tab, line feed, carriage return. *)
Definition is_ws (c : ascii) : bool :=
  let n := nat_of_ascii c in
  ((n =? 32) || (n =? 9) || (n =? 10) || (n =? 13))%nat.

Fixpoint skip_ws (s : string) : string :=
  match s with
  | "" => ""
  | String c s' => if is_ws c then skip_ws s' else s
  end.

Definition hex_value (c : ascii) : option nat :=
  let n := nat_of_ascii c in
  if ((48 <=? n) && (n <=? 57))%nat then Some (n - 48)%nat
  else if ((97 <=? n) && (n <=? 102))%nat then Some (n - 87)%nat
  else if ((65 <=? n) && (n <=? 70))%nat then Some (n - 55)%nat
  else None.

Definition hex4 (a b c d : ascii) : option nat :=
  match hex_value a, hex_value b, hex_value c, hex_value d with
  | Some x, Some y, Some z, Some w => Some (((x * 16 + y) * 16 + z) * 16 + w)%nat
  | _, _, _, _ => None
  end.

(** [BACKSLASH]: the character a short escape stands for. *)
Definition unescape (e : ascii) : option ascii :=
  if Ascii.eqb e dquote then Some dquote
  else if Ascii.eqb e backslash then Some backslash
  else if Ascii.eqb e "/" then Some "/"%char
  else if Ascii.eqb e "b" then Some "008"%char
  else if Ascii.eqb e "f" then Some "012"%char
  else if Ascii.eqb e "n" then Some "010"%char
  else if Ascii.eqb e "r" then Some "013"%char
  else if Ascii.eqb e "t" then Some "009"%char
  else None.

Definition prepend (c : ascii) (r : Result (string * string)) : Result (string * string) :=
  '(str, rest) ← r; Return (String c str, rest).

(** [scanstring], strict, entered just after the opening quote;
    returns the decoded text and what follows the closing quote. *)
Fixpoint scanstring (s : string) : Result (string * string) :=
  match s with
  | "" => Raise JSONDecodeError
  | String c s1 =>
      if Ascii.eqb c dquote then Return ("", s1)
      else if Ascii.eqb c backslash then
        match s1 with
        | "" => Raise JSONDecodeError
        | String e s2 =>
            if Ascii.eqb e "u" then
              match s2 with
              | String h1 (String h2 (String h3 (String h4 s6))) =>
                  match hex4 h1 h2 h3 h4 with
                  | None => Raise JSONDecodeError
                  | Some n =>
                      if (n <? 256)%nat
                      then prepend (ascii_of_nat n) (scanstring s6)
                      else Raise Unmodelled
                  end
              | _ => Raise JSONDecodeError
              end
            else
              match unescape e with
              | Some ch => prepend ch (scanstring s2)
              | None => Raise JSONDecodeError
              end
        end
      else if (nat_of_ascii c <? 32)%nat then Raise JSONDecodeError
      else prepend c (scanstring s1)
  end.

Fixpoint strip_prefix (p s : string) : option string :=
  match p, s with
  | "", _ => Some s
  | String a p', String b s' => if Ascii.eqb a b then strip_prefix p' s' else None
  | _, "" => None
  end.

Definition is_digit (c : ascii) : bool :=
  let n := nat_of_ascii c in ((48 <=? n) && (n <=? 57))%nat.

(** Does a number literal ([NUMBER_RE], [NaN], [Infinity],
    [-Infinity]) start here? *)
Definition starts_number (s : string) : bool :=
  match s with
  | String c s' =>
      is_digit c
      || (Ascii.eqb c "-" && match s' with String d _ => is_digit d | "" => false end)
      || Py.startswith "NaN" s || Py.startswith "Infinity" s
      || Py.startswith "-Infinity" s
  | "" => false
  end.

(** [dict(pairs)]: a later item with a key already present replaces
    the value and keeps the place of the first. *)
Fixpoint dict_set (k : string) (v : value) (d : list (string * value))
  : list (string * value) :=
  match d with
  | [] => [(k, v)]
  | (k', v') :: d' =>
      if String.eqb k' k then (k', v) :: d' else (k', v') :: dict_set k v d'
  end.

Definition dict (pairs : list (string * value)) : list (string * value) :=
  fold_left (fun d kv => dict_set (fst kv) (snd kv) d) pairs [].

(** [scan_once] with [JSONArray] and [JSONObject].  [array_items] and
    [object_items] are the two [while True] loops, entered where an
    item is expected; they carry the items read so far, last first. *)
Fixpoint scan_once (fuel : nat) (s : string) : Result (value * string) :=
  match fuel with
  | O => Raise FuelExhausted
  | S fuel' =>
      match s with
      | "" => Raise JSONDecodeError
      | String c s' =>
          if Ascii.eqb c dquote then
            '(str, rest) ← scanstring s'; Return (JStr str, rest)
          else if Ascii.eqb c "{" then
            match skip_ws s' with
            | String c1 s1 =>
                if Ascii.eqb c1 "}" then Return (JObj [], s1)
                else if Ascii.eqb c1 dquote then object_items fuel' s1 []
                else Raise JSONDecodeError
            | "" => Raise JSONDecodeError
            end
          else if Ascii.eqb c "[" then
            match skip_ws s' with
            | String c1 s1 =>
                if Ascii.eqb c1 "]" then Return (JArr [], s1)
                else array_items fuel' (String c1 s1) []
            | "" => Raise JSONDecodeError
            end
          else
            match strip_prefix "null" s, strip_prefix "true" s, strip_prefix "false" s with
            | Some rest, _, _ => Return (JNull, rest)
            | _, Some rest, _ => Return (JBool true, rest)
            | _, _, Some rest => Return (JBool false, rest)
            | _, _, _ =>
                if starts_number s then Raise Unmodelled else Raise JSONDecodeError
            end
      end
  end
with array_items (fuel : nat) (s : string) (acc : list value)
  : Result (value * string) :=
  match fuel with
  | O => Raise FuelExhausted
  | S fuel' =>
      '(v, rest) ← scan_once fuel' s;
      match skip_ws rest with
      | String c s1 =>
          if Ascii.eqb c "]" then Return (JArr (rev (v :: acc)), s1)
          else if Ascii.eqb c "," then array_items fuel' (skip_ws s1) (v :: acc)
          else Raise JSONDecodeError
      | "" => Raise JSONDecodeError
      end
  end
with object_items (fuel : nat) (s : string) (acc : list (string * value))
  : Result (value * string) :=
  match fuel with
  | O => Raise FuelExhausted
  | S fuel' =>
      '(key, rest) ← scanstring s;
      match skip_ws rest with
      | String c s1 =>
          if Ascii.eqb c ":" then
            '(v, rest') ← scan_once fuel' (skip_ws s1);
            match skip_ws rest' with
            | String c2 s2 =>
                if Ascii.eqb c2 "}" then Return (JObj (dict (rev ((key, v) :: acc))), s2)
                else if Ascii.eqb c2 "," then
                  match skip_ws s2 with
                  | String c3 s3 =>
                      if Ascii.eqb c3 dquote
                      then object_items fuel' s3 ((key, v) :: acc)
                      else Raise JSONDecodeError
                  | "" => Raise JSONDecodeError
                  end
                else Raise JSONDecodeError
            | "" => Raise JSONDecodeError
            end
          else Raise JSONDecodeError
      | "" => Raise JSONDecodeError
      end
  end.

(** [json.loads(s)]: one value, white space allowed around it, nothing
    else after it.  Every second call of the decoder at least reads a
    character, so twice the length of the text bounds the recursion. *)
Definition loads (s : string) : Result value :=
  '(v, rest) ← scan_once (S (2 * String.length s)) (skip_ws s);
  match skip_ws rest with
  | "" => Return v
  | _ => Raise JSONDecodeError
  end.

(** *** Measures used in the proofs about the decoder *)

(** The number of values in [v], counting every item once more. *)
Fixpoint nodes (v : value) : nat :=
  match v with
  | JArr items => S (list_sum (map (fun i => S (nodes i)) items))
  | JObj pairs => S (list_sum (map (fun kv => S (nodes (snd kv))) pairs))
  | _ => 1
  end.

Fixpoint distinct (keys : list string) : bool :=
  match keys with
  | [] => true
  | k :: keys' => negb (existsb (String.eqb k) keys') && distinct keys'
  end.

(** What follows the first of the texts joined by [", "]. *)
Fixpoint more (texts : list string) : string :=
  match texts with
  | [] => ""
  | t :: texts' => ", " +:+ t +:+ more texts'
  end.

(** The text of one item of a dict. *)
Definition pair_text (kv : string * value) : string :=
  encode_basestring_ascii (fst kv) +:+ ": " +:+ dumps (snd kv).

(** The decoder reads [v] back from its text, whatever follows it,
    given as much fuel as [v] has nodes. *)
Definition decodes (v : value) : Prop :=
  forall fuel rest, nodes v <= fuel -> scan_once fuel (dumps v +:+ rest) = Return (v, rest).

(** A call of the decoder that returns has read something. *)
Definition progress_at (fuel : nat) : Prop :=
  (forall s v rest,
      scan_once fuel s = Return (v, rest) -> String.length rest < String.length s)
  /\ (forall s acc v rest,
        array_items fuel s acc = Return (v, rest) -> String.length rest < String.length s)
  /\ (forall s acc v rest,
        object_items fuel s acc = Return (v, rest) -> String.length rest < String.length s).

(** With twice the length of the text as fuel, and a little more, a
    call of the decoder that raises raises [JSONDecodeError], or
    [Unmodelled] where the embedding stops. *)
Definition raises_only_decode_errors (fuel : nat) : Prop :=
  (forall s e,
      2 * String.length s + 1 <= fuel ->
      scan_once fuel s = Raise e -> e = JSONDecodeError \/ e = Unmodelled)
  /\ (forall s acc e,
        2 * String.length s + 2 <= fuel ->
        array_items fuel s acc = Raise e -> e = JSONDecodeError \/ e = Unmodelled)
  /\ (forall s acc e,
        2 * String.length s + 2 <= fuel ->
        object_items fuel s acc = Raise e -> e = JSONDecodeError \/ e = Unmodelled).

(** A value is a Python value when no dict in it has a key twice. *)
Fixpoint is_dict_tree (v : value) : bool :=
  match v with
  | JArr items => forallb is_dict_tree items
  | JObj pairs =>
      distinct (map fst pairs) && forallb (fun kv => is_dict_tree (snd kv)) pairs
  | _ => true
  end.

End json.

(** ** The normaliser: the part of [fetch_pmc_full_text] that reads the tree *)

(** The [metadata] dict.  [title] and [journal] hold an element's [text]
    attribute, which is [None] for an element without leading text. *)
Record Metadata : Type := {
  title : option string;
  journal : option string;
  authors : list string;
  date : string;
  abstract : string;
  keywords : list string
}.

Module Normalizer.

(** [# Extract article title] *)
Definition title_of (pmc_id : string) (root : Element) : option string :=
  match ET.find_desc "article-title" root with
  | Some title_elem => text title_elem
  | None => Some ("PMC_" +:+ pmc_id)
  end.

(** [# Extract journal name] *)
Definition journal_of (root : Element) : option string :=
  match ET.find_desc "journal-title" root with
  | Some journal_elem => text journal_elem
  | None => Some "Unknown Journal"
  end.

(** One turn of the loop over the [name] elements. *)
Definition add_author (authors : list string) (author : Element) : list string :=
  match ET.find "surname" author, ET.find "given-names" author with
  | Some surname, Some given_names =>
      authors ++ [Py.format (text given_names) +:+ " " +:+ Py.format (text surname)]
  | _, _ => authors
  end.

(** [# Extract authors] *)
Definition authors_of (root : Element) : list string :=
  match ET.find_desc "contrib-group" root with
  | Some contrib_group =>
      fold_left add_author (ET.findall_desc "name" contrib_group) []
  | None => []
  end.

(** [if x is not None and x.text: date_parts.append(x.text)] *)
Definition add_part (date_parts : list string) (x : option Element) : list string :=
  match x with
  | Some e =>
      match text e with
      | Some s => if Py.truthy s then date_parts ++ [s] else date_parts
      | None => date_parts
      end
  | None => date_parts
  end.

(** [# Extract publication date] *)
Definition date_of (root : Element) : string :=
  match ET.find_desc "pub-date" root with
  | Some pub_date =>
      let year := ET.find "year" pub_date in
      let month := ET.find "month" pub_date in
      let day := ET.find "day" pub_date in
      let date_parts := add_part (add_part (add_part [] year) month) day in
      match date_parts with
      | [] => "Unknown Date"
      | _ => Py.join "-" date_parts
      end
  | None => "Unknown Date"
  end.

(** [if e.text: parts.append(e.text.strip())] *)
Definition add_stripped (parts : list string) (e : Element) : list string :=
  match text e with
  | Some s => if Py.truthy s then parts ++ [Py.strip s] else parts
  | None => parts
  end.

(** [# Extract abstract] *)
Definition abstract_of (root : Element) : string :=
  match ET.find_desc "abstract" root with
  | Some abstract_elem =>
      Py.join " " (fold_left add_stripped (ET.findall_desc "p" abstract_elem) [])
  | None => ""
  end.

(** [# Extract keywords] *)
Definition keywords_of (root : Element) : list string :=
  match ET.find_desc "kwd-group" root with
  | Some kwd_group => fold_left add_stripped (ET.findall_desc "kwd" kwd_group) []
  | None => []
  end.

(** The [re.sub] call: it deletes every backslash, slash, star,
    question mark, colon, double quote, angle bracket and bar. *)
Fixpoint remove_invalid (s : string) : string :=
  match s with
  | "" => ""
  | String c s' =>
      if existsb (Ascii.eqb c)
           [json.backslash; "/"; "*"; "?"; ":"; json.dquote; "<"; ">"; "|"]%char
      then remove_invalid s'
      else String c (remove_invalid s')
  end.

(** [clean_title]; the script computes it and does not use it. *)
Definition clean_title (title : option string) : string :=
  match title with
  | Some t => remove_invalid t
  | None => "untitled"
  end.

(** The text one [sec] element contributes. *)
Definition section_text (sec : Element) : string :=
  let title_elem := ET.find "title" sec in
  let paragraphs := ET.findall "p" sec in
  let heading :=
    match title_elem with
    | Some t =>
        match text t with
        | Some s => if Py.truthy s then Py.nl +:+ "## " +:+ Py.strip s +:+ Py.nl else ""
        | None => ""
        end
    | None => ""
    end in
  fold_left
    (fun section_text p =>
       match text p with
       | Some s => if Py.truthy s then section_text +:+ Py.strip s +:+ Py.nl else section_text
       | None => section_text
       end)
    paragraphs heading.

Definition add_section (full_text : list string) (sec : Element) : list string :=
  let t := section_text sec in
  if Py.truthy t then full_text ++ [t] else full_text.

Definition no_readable_text : string := "No readable text found.".
Definition full_text_not_available : string := "Full text not available for this article.".
Definition error_retrieving : string := "Error retrieving full text.".

(** The second component of the pair returned for a parsed record. *)
Definition body_of (root : Element) : string :=
  match ET.find_desc "body" root with
  | Some body =>
      let full_text := fold_left add_section (ET.findall_desc "sec" body) [] in
      match full_text with
      | [] => no_readable_text
      | _ => Py.join Py.nl full_text
      end
  | None => full_text_not_available
  end.

Definition metadata_of (pmc_id : string) (root : Element) : Metadata :=
  {| title := title_of pmc_id root;
     journal := journal_of root;
     authors := authors_of root;
     date := date_of root;
     abstract := abstract_of root;
     keywords := keywords_of root |}.

(** Everything [fetch_pmc_full_text] does after [ET.fromstring]. *)
Definition normalize (pmc_id : string) (root : Element) : Metadata * string :=
  (metadata_of pmc_id root, body_of root).

End Normalizer.

(** ** The outside world *)

(** What [requests.get] hands back: a status code and a body.  The body
    is kept as the result of decoding it ([response.json()] or
    [ET.fromstring(response.text)]); [None] stands for a body the
    decoder rejects. *)
Record Response (A : Type) : Type := {
  status_code : Z;
  decoded : option A
}.

Arguments status_code {A} r.
Arguments decoded {A} r.

(** A call of [requests.get] raises or answers. *)
Inductive Reply (A : Type) : Type :=
| Failed
| Answer (r : Response A).

Arguments Failed {A}.
Arguments Answer {A} r.

(** The decoded body of the search endpoint, as far as the script reads
    it: an object that may hold [esearchresult], an object that may hold
    [idlist], a list of identifiers. *)
Record EsearchResult : Type := { idlist : option (list string) }.
Record EsearchData : Type := { esearchresult : option EsearchResult }.

(** One hit of the searcher: [hit.docid], [hit.score]. *)
Record Hit : Type := { docid : string; score : Q }.

(** One item of [results]: the dict of the branch taken. *)
Inductive SearchResult : Type :=
| Joined (rank : nat) (doc_id : string) (score : Q)
         (date journal_name authors title abstract : json.value)
| Missing (rank : nat) (doc_id : string) (score : Q) (error : string).

Definition rank (r : SearchResult) : nat :=
  match r with Joined k _ _ _ _ _ _ _ | Missing k _ _ _ => k end.

Definition doc_id (r : SearchResult) : string :=
  match r with Joined _ d _ _ _ _ _ _ | Missing _ d _ _ => d end.

Definition score_of (r : SearchResult) : Q :=
  match r with Joined _ _ s _ _ _ _ _ | Missing _ _ s _ => s end.

(** One constructor for each [print] of the script, with the values it
    interpolates. *)
Inductive Message : Type :=
| StatusCode (code : Z)
| ResponseText
| ResponseHeaders
| ApiError (code : Z)
| JsonDecodeErrorMsg
| RawResponse
| RequestErrorMsg
| NoArticlesFound
| FoundArticles (n : nat)
| Processing (pmc_id : string)
| Skipping (pmc_id : string)
| AddedToJsonl (pmc_id : string)
| SavedEntries (n : nat)
| ImportantKeywords (keywords : list string)
| JsonlNotFound
| InvalidJson
| SearchErrorMsg
| TopResults (k : nat) (keywords : list string)
| HitLine (rank : nat) (doc_id : string) (score : Q)
| TitleLine (v : json.value)
| JournalLine (v : json.value)
| DateLine (v : json.value)
| AbstractLine (v : json.value)
| NotFoundLine
| ResultsSaved
| SavingError
| TimeTaken.

(** What the script does to the world, in the order it does it. *)
Inductive Event : Type :=
| Print (m : Message)
| Esearch (term : string) (retmax : Z)
| Efetch (pmc_id : string)
| Sleep (seconds : Q).

(** The console, network and clock as one trace (oldest event first),
    the collection file as its text ([None]: no such file) and the
    results file as the items written to it. *)
Record World : Type := {
  trace : list Event;
  collection : option string;
  results_file : option (list SearchResult)
}.

(** What the world answers.  [collection_writable] tells whether
    creating the directory and opening the collection file for writing
    succeed, [results_writable] whether opening the results file does.
    [extract_keywords] is imported from a module that is not among the
    sources read here, and [searcher] stands for the index builder and
    the searcher of the search library: a query and a number of hits
    wanted give the hits, or an exception. *)
Record Env : Type := {
  esearch : string -> Z -> Reply EsearchData;
  efetch : string -> Reply Element;
  collection_writable : bool;
  results_writable : bool;
  extract_keywords : string -> list string;
  searcher : string -> nat -> Result (list Hit)
}.

(** ** Stateful code: a world-passing monad with exceptions *)

Definition M (A : Type) : Type := World -> Result A * World.

#[global] Instance M_ret : MRet M := fun A a w => (Return a, w).

#[global] Instance M_bind : MBind M := fun A B k m w =>
  match m w with
  | (Return a, w') => k a w'
  | (Raise e, w') => (Raise e, w')
  end.

Definition raise {A} (e : Exn) : M A := fun w => (Raise e, w).

Definition emit (ev : Event) : M unit := fun w =>
  (Return tt,
   {| trace := trace w ++ [ev];
      collection := collection w;
      results_file := results_file w |}).

Definition print (m : Message) : M unit := emit (Print m).

(** [try: body except ...]: [handler e] is the clause that catches
    [e], if there is one. *)
Definition try_except {A} (body : M A) (handler : Exn -> option (M A)) : M A :=
  fun w =>
    match body w with
    | (Raise e, w') =>
        match handler e with
        | Some h => h w'
        | None => (Raise e, w')
        end
    | r => r
    end.

(** [for x in xs: body x] *)
Fixpoint for_each {A} (xs : list A) (body : A -> M unit) : M unit :=
  match xs with
  | [] => mret tt
  | x :: xs' => body x ≫= fun _ => for_each xs' body
  end.

(** [requests.get]: the call is recorded, then it raises or answers. *)
Definition requests_get {A} (ev : Event) (r : Reply A) : M (Response A) :=
  emit ev ≫= fun _ =>
  match r with
  | Failed => raise RequestException
  | Answer resp => mret resp
  end.

(** [response.json()] *)
Definition response_json {A} (resp : Response A) : M A :=
  match decoded resp with
  | Some data => mret data
  | None => raise JSONDecodeError
  end.

(** [ET.fromstring(response.text)] *)
Definition fromstring {A} (resp : Response A) : M A :=
  match decoded resp with
  | Some root => mret root
  | None => raise ParseError
  end.

(** ** [fetch_pmc_ids] *)

Definition fetch_pmc_ids (env : Env) (query : string) (max_results : Z) : M (list string) :=
  try_except
    (response ← requests_get (Esearch query max_results) (esearch env query max_results);
     _ ← print (StatusCode (status_code response));
     _ ← print ResponseText;
     _ ← print ResponseHeaders;
     if negb (status_code response =? 200)%Z then
       _ ← print (ApiError (status_code response));
       mret []
     else
       try_except
         (data ← response_json response;
          let pmc_ids :=
            default [] (idlist (default {| idlist := None |} (esearchresult data))) in
          mret pmc_ids)
         (fun e =>
            match e with
            | JSONDecodeError =>
                Some (_ ← print JsonDecodeErrorMsg;
                      _ ← print RawResponse;
                      mret [])
            | _ => None
            end))
    (fun e =>
       match e with
       | RequestException => Some (_ ← print RequestErrorMsg; mret [])
       | _ => None
       end).

(** ** [fetch_pmc_full_text] *)

Definition fetch_pmc_full_text (env : Env) (pmc_id : string)
  : M (option Metadata * string) :=
  response ← requests_get (Efetch pmc_id) (efetch env pmc_id);
  if (status_code response =? 200)%Z then
    root ← fromstring response;
    let '(metadata, body) := Normalizer.normalize pmc_id root in
    mret (Some metadata, body)
  else
    mret (None, Normalizer.error_retrieving).

(** ** [download_pmc_articles_for_pyserini] *)

Definition opt_str (o : option string) : json.value :=
  match o with Some s => json.JStr s | None => json.JNull end.

(** The [doc] dict, keys in the order the script gives them. *)
Definition make_doc (pmc_id : string) (metadata : Metadata) (full_text : string)
  : json.value :=
  json.JObj
    [("id", json.JStr ("PMC" +:+ pmc_id));
     ("title", opt_str (title metadata));
     ("journal", opt_str (journal metadata));
     ("authors", json.JArr (map json.JStr (authors metadata)));
     ("date", json.JStr (date metadata));
     ("abstract", json.JStr (abstract metadata));
     ("keywords", json.JArr (map json.JStr (keywords metadata)));
     ("contents", json.JStr full_text)].

(** [os.makedirs] followed by [open(jsonl_path, "w")]: the file is
    created or emptied. *)
Definition open_collection (env : Env) : M unit := fun w =>
  if collection_writable env then
    (Return tt,
     {| trace := trace w; collection := Some ""; results_file := results_file w |})
  else (Raise OSError, w).

(** [jsonl_file.write(s)] *)
Definition write_collection (s : string) : M unit := fun w =>
  (Return tt,
   {| trace := trace w;
      collection := Some (default "" (collection w) +:+ s);
      results_file := results_file w |}).

(** The condition of the [continue]. *)
Definition skipped (metadata : option Metadata) (full_text : string) : bool :=
  match metadata with
  | None => true
  | Some _ =>
      Py.contains "Error" full_text || Py.contains "Full text not available" full_text
  end.

(** The body of the loop over [pmc_ids]; the [continue] is the branch
    that ends after the [Skipping] message.  Subscripting [metadata]
    when it is [None] would raise, which the test before excludes. *)
Definition process_id (env : Env) (pmc_id : string) : M unit :=
  _ ← print (Processing pmc_id);
  '(metadata, full_text) ← fetch_pmc_full_text env pmc_id;
  if skipped metadata full_text then
    print (Skipping pmc_id)
  else
    match metadata with
    | Some m =>
        _ ← write_collection (json.dumps (make_doc pmc_id m full_text) +:+ Py.nl);
        _ ← print (AddedToJsonl pmc_id);
        emit (Sleep (34 # 100))
    | None => raise TypeError
    end.

Definition download_pmc_articles_for_pyserini
    (env : Env) (query : string) (max_results : Z) : M unit :=
  pmc_ids ← fetch_pmc_ids env query max_results;
  match pmc_ids with
  | [] => print NoArticlesFound
  | _ =>
      _ ← print (FoundArticles (length pmc_ids));
      _ ← open_collection env;
      _ ← for_each pmc_ids (process_id env);
      print (SavedEntries (length pmc_ids))
  end.

(** ** [run_search] *)

Module Search.

Definition TOP_K : nat := 100.

Definition cr : ascii := "013"%char.
Definition lf : ascii := "010"%char.

(** Reading in text mode: [\r\n] and [\r] arrive as [\n]. *)
Fixpoint translate_newlines (s : string) : string :=
  match s with
  | "" => ""
  | String c s' =>
      if Ascii.eqb c cr then
        match s' with
        | String c2 s'' =>
            if Ascii.eqb c2 lf then String lf (translate_newlines s'')
            else String lf (translate_newlines s')
        | "" => String lf ""
        end
      else String c (translate_newlines s')
  end.

(** The lines a [for line in f] yields: each keeps its line feed. *)
Fixpoint lines (s : string) : list string :=
  match s with
  | "" => []
  | String c s' =>
      if Ascii.eqb c lf then String c "" :: lines s'
      else
        match lines s' with
        | [] => [String c ""]
        | l :: ls => String c l :: ls
        end
  end.

(** No carriage return and no line feed in [s]. *)
Fixpoint no_break (s : string) : bool :=
  match s with
  | "" => true
  | String c s' => negb (Ascii.eqb c cr) && negb (Ascii.eqb c lf) && no_break s'
  end.

(** [d.get(k)] on the items of a dict. *)
Fixpoint get (k : string) (d : list (string * json.value)) : option json.value :=
  match d with
  | [] => None
  | (k', v) :: d' => if String.eqb k' k then Some v else get k d'
  end.

(** [doc = json.loads(line); raw_docs[doc['id']] = doc].  A key that
    is no [str] equals no [docid] and is left out of the map. *)
Definition store_line (raw_docs : gmap string (list (string * json.value)))
    (line : string) : Result (gmap string (list (string * json.value))) :=
  doc ← json.loads line;
  match doc with
  | json.JObj pairs =>
      match get "id" pairs with
      | None => Raise KeyError
      | Some (json.JStr k) => Return (<[k := pairs]> raw_docs)
      | Some (json.JArr _) | Some (json.JObj _) => Raise TypeError
      | Some _ => Return raw_docs
      end
  | _ => Raise TypeError
  end.

Fixpoint store_lines (raw_docs : gmap string (list (string * json.value)))
    (ls : list string) : Result (gmap string (list (string * json.value))) :=
  match ls with
  | [] => Return raw_docs
  | l :: ls' => raw_docs' ← store_line raw_docs l; store_lines raw_docs' ls'
  end.

(** [# ----- Load metadata -----], without its two [except] clauses. *)
Definition load_metadata : M (gmap string (list (string * json.value))) := fun w =>
  match collection w with
  | None => (Raise FileNotFoundError, w)
  | Some text => (store_lines ∅ (lines (translate_newlines text)), w)
  end.

(** The dict built for one hit. *)
Definition result_for (raw_docs : gmap string (list (string * json.value)))
    (i : nat) (hit : Hit) : SearchResult :=
  match raw_docs !! docid hit with
  | Some ((_ :: _) as data) =>
      Joined (i + 1) (docid hit) (score hit)
        (default (json.JStr "[No date]") (get "date" data))
        (default (json.JStr "[No journal]") (get "journal" data))
        (default (json.JStr "[No authors]") (get "authors" data))
        (default (json.JStr "[No title]") (get "title" data))
        (default (json.JStr "[No abstract]") (get "abstract" data))
  | _ => Missing (i + 1) (docid hit) (score hit) "Not found in local data file"
  end.

(** [v[:200]] *)
Definition slice200 (v : json.value) : M json.value :=
  match v with
  | json.JStr s => mret (json.JStr (String.substring 0 200 s))
  | json.JArr items => mret (json.JArr (take 200 items))
  | _ => raise TypeError
  end.

(** [# Print to console] *)
Definition report (result : SearchResult) : M unit :=
  _ ← print (HitLine (rank result) (doc_id result) (score_of result));
  match result with
  | Joined _ _ _ d j _ t a =>
      _ ← print (TitleLine t);
      _ ← print (JournalLine j);
      _ ← print (DateLine d);
      a200 ← slice200 a;
      print (AbstractLine a200)
  | Missing _ _ _ _ => print NotFoundLine
  end.

(** [for i, hit in enumerate(hits)], from index [i] on. *)
Fixpoint rank_hits (raw_docs : gmap string (list (string * json.value)))
    (i : nat) (hits : list Hit) (results : list SearchResult)
  : M (list SearchResult) :=
  match hits with
  | [] => mret results
  | hit :: hits' =>
      let result := result_for raw_docs i hit in
      let results := results ++ [result] in
      _ ← report result;
      rank_hits raw_docs (S i) hits' results
  end.

(** What the loop appends to [results], leaving its printing aside. *)
Fixpoint results_from (raw_docs : gmap string (list (string * json.value)))
    (i : nat) (hits : list Hit) : list SearchResult :=
  match hits with
  | [] => []
  | hit :: hits' => result_for raw_docs i hit :: results_from raw_docs (S i) hits'
  end.

(** [# ----- Save results to JSONL -----]: a failure to open the file
    is caught and reported. *)
Definition save_results (env : Env) (results : list SearchResult) : M unit := fun w =>
  if results_writable env then
    print ResultsSaved
      {| trace := trace w; collection := collection w; results_file := Some results |}
  else print SavingError w.

Definition run_search (env : Env) (query : string) : M (option (list SearchResult)) :=
  let keywords := extract_keywords env query in
  _ ← print (ImportantKeywords keywords);
  loaded ← try_except
              (raw_docs ← load_metadata; mret (Some raw_docs))
              (fun e =>
                 match e with
                 | FileNotFoundError => Some (_ ← print JsonlNotFound; mret None)
                 | JSONDecodeError => Some (_ ← print InvalidJson; mret None)
                 | _ => None
                 end);
  match loaded with
  | None => mret None
  | Some raw_docs =>
      match searcher env (Py.join " " keywords) TOP_K with
      | Raise _ => _ ← print SearchErrorMsg; mret None
      | Return hits =>
          _ ← print (TopResults TOP_K keywords);
          results ← rank_hits raw_docs 0 hits [];
          _ ← save_results env results;
          _ ← print TimeTaken;
          mret (Some results)
      end
  end.

End Search.

(** The [__main__] block: keywords, download, search.  Building the
    index in between is the search library's work and lives in
    [searcher]. *)
Definition main (env : Env) (query : string) : M (option (list SearchResult)) :=
  let keywords := extract_keywords env query in
  _ ← print (ImportantKeywords keywords);
  _ ← download_pmc_articles_for_pyserini env (Py.join " " keywords) 500;
  Search.run_search env query.

(** ** The specification's vocabulary *)

Module Spec.

(** The string of part [t] of a date element, when the part is
    present: the element has a child [t] whose text is not empty. *)
Definition present (t : string) (pub_date : Element) : option string :=
  match ET.find t pub_date with
  | Some e =>
      match text e with
      | Some s => if Py.truthy s then Some s else None
      | None => None
      end
  | None => None
  end.

Definition unknown_date : string := "Unknown Date".

(** Join whichever of year, month, day are present with a separator,
    in that order; with none present, the unknown-date sentinel. *)
Definition assemble_date (year month day : option string) : string :=
  match year, month, day with
  | Some y, Some m, Some d => y +:+ "-" +:+ m +:+ "-" +:+ d
  | Some y, Some m, None => y +:+ "-" +:+ m
  | Some y, None, Some d => y +:+ "-" +:+ d
  | Some y, None, None => y
  | None, Some m, Some d => m +:+ "-" +:+ d
  | None, Some m, None => m
  | None, None, Some d => d
  | None, None, None => unknown_date
  end.





(** The delay the writer owes the service between two record fetches. *)
Definition delay : Q := 34 # 100.

(** A trace is throttled when every record fetch but the first comes
    after a pause of at least [delay] made since the fetch before it.
    [paused] tells whether such a pause has been seen since then. *)
Fixpoint throttled_from (paused : bool) (events : list Event) : bool :=
  match events with
  | [] => true
  | Efetch _ :: events' => paused && throttled_from false events'
  | Sleep seconds :: events' =>
      throttled_from (paused || Qle_bool delay seconds) events'
  | _ :: events' => throttled_from paused events'
  end.

Definition throttled (events : list Event) : bool := throttled_from true events.

(** A stored document whose abstract, if it has one, can be cut to
    its first 200 items: a string or a list, as the writer stores it. *)
Definition abstract_ok (data : list (string * json.value)) : bool :=
  match Search.get "abstract" data with
  | Some (json.JStr _) | Some (json.JArr _) | None => true
  | Some _ => false
  end.

Definition sliceable (raw_docs : gmap string (list (string * json.value))) : bool :=
  forallb (fun kv => abstract_ok (snd kv)) (map_to_list raw_docs).

(** The record fetch of [pmc_id] raises nothing: the service answers,
    and when the status is 200 the body is well-formed. *)
Definition answers (env : Env) (pmc_id : string) : bool :=
  match efetch env pmc_id with
  | Answer response =>
      negb (status_code response =? 200)%Z
      || match decoded response with Some _ => true | None => false end
  | Failed => false
  end.

(** The exception the record fetch of [pmc_id] raises, if any. *)
Definition fetch_exception (env : Env) (pmc_id : string) : option Exn :=
  match efetch env pmc_id with
  | Answer response =>
      if (status_code response =? 200)%Z then
        match decoded response with
        | Some _ => None
        | None => Some ParseError
        end
      else None
  | Failed => Some RequestException
  end.

(** The document the writer builds for [pmc_id], if it keeps it. *)
Definition doc_of (env : Env) (pmc_id : string) : option json.value :=
  match efetch env pmc_id with
  | Answer response =>
      if (status_code response =? 200)%Z then
        match decoded response with
        | Some root =>
            let '(metadata, full_text) := Normalizer.normalize pmc_id root in
            if skipped (Some metadata) full_text then None
            else Some (make_doc pmc_id metadata full_text)
        | None => None
        end
      else None
  | Failed => None
  end.

(** The text the writer leaves in the file for [pmc_ids]. *)
Fixpoint written (env : Env) (pmc_ids : list string) : string :=
  match pmc_ids with
  | [] => ""
  | pmc_id :: pmc_ids' =>
      match doc_of env pmc_id with
      | Some doc => json.dumps doc +:+ Py.nl +:+ written env pmc_ids'
      | None => written env pmc_ids'
      end
  end.

(** The map the query runner builds from that text. *)
Fixpoint stored_docs (env : Env) (pmc_ids : list string)
    (raw_docs : gmap string (list (string * json.value)))
  : gmap string (list (string * json.value)) :=
  match pmc_ids with
  | [] => raw_docs
  | pmc_id :: pmc_ids' =>
      match doc_of env pmc_id with
      | Some (json.JObj pairs) =>
          stored_docs env pmc_ids' (<["PMC" +:+ pmc_id := pairs]> raw_docs)
      | _ => stored_docs env pmc_ids' raw_docs
      end
  end.

(** Every document of the map is stored under its own [id]. *)
Definition has_ids (raw_docs : gmap string (list (string * json.value))) : Prop :=
  forall k data, raw_docs !! k = Some data -> Search.get "id" data = Some (json.JStr k).

(** Scores from the best down. *)
Fixpoint descending (scores : list Q) : Prop :=
  match scores with
  | a :: (b :: _) as rest => (b <= a)%Q /\ descending rest
  | _ => True
  end.

(** The metadata a result carries for a stored document. *)
Definition joined (i : nat) (hit : Hit) (data : list (string * json.value))
  : SearchResult :=
  Joined (i + 1) (docid hit) (score hit)
    (default (json.JStr "[No date]") (Search.get "date" data))
    (default (json.JStr "[No journal]") (Search.get "journal" data))
    (default (json.JStr "[No authors]") (Search.get "authors" data))
    (default (json.JStr "[No title]") (Search.get "title" data))
    (default (json.JStr "[No abstract]") (Search.get "abstract" data)).

Definition not_found (i : nat) (hit : Hit) : SearchResult :=
  Missing (i + 1) (docid hit) (score hit) "Not found in local data file".

End Spec.

(** ** Sample records *)

Module Sample.

Definition leaf (t s : string) : Element := Elem t (Some s) [].

(** A record whose date has a year and nothing else. *)
Definition year_only : Element :=
  Elem "article" None
    [Elem "front" None
       [Elem "pub-date" None [leaf "year" "2020"]]].


(** A body container without any section. *)
Definition empty_body : Element :=
  Elem "article" None
    [Elem "front" None [leaf "article-title" "On nothing"];
     Elem "body" None []].

(** No body container at all. *)
Definition no_body : Element :=
  Elem "article" None
    [Elem "front" None [leaf "article-title" "Abstract only"]].

(** A title that opens with markup, and a journal title that is empty:
    neither element has leading text. *)
Definition italic_title : Element :=
  Elem "article" None
    [Elem "front" None
       [Elem "journal-meta" None [Elem "journal-title" None []];
        Elem "article-meta" None
          [Elem "article-title" None [leaf "italic" "Escherichia coli"]]];
     Elem "body" None
       [Elem "sec" None [leaf "title" "Results"; leaf "p" "Growth was fast."]]].

(** A record with none of the elements the normaliser looks for. *)
Definition bare : Element := Elem "article" None [].

(** An article with a title and one section of one paragraph. *)
Definition article (title paragraph : string) : Element :=
  Elem "article" None
    [Elem "front" None [leaf "article-title" title];
     Elem "body" None
       [Elem "sec" None [leaf "title" "Methods"; leaf "p" paragraph]]].

Definition ok (root : Element) : Reply Element :=
  Answer {| status_code := 200; decoded := Some root |}.

Definition status (code : Z) : Reply Element :=
  Answer {| status_code := code; decoded := None |}.

(** A world in which the search endpoint returns [ids] and the record
    endpoint answers as [fetch] says. *)
Definition env_of (ids : list string) (fetch : string -> Reply Element) : Env :=
  {| esearch := fun _ _ =>
       Answer {| status_code := 200;
                 decoded := Some {| esearchresult := Some {| idlist := Some ids |} |} |};
     efetch := fetch;
     collection_writable := true;
     results_writable := true;
     extract_keywords := fun q => [q];
     searcher := fun _ _ => Return [] |}.

Definition w0 : World := {| trace := []; collection := None; results_file := None |}.

(** Record 100 is fine; fetching 200 gets status 500. *)
Definition second_fails : Env :=
  env_of ["100"; "200"]
    (fun pmc_id =>
       if String.eqb pmc_id "100" then ok (article "Diet" "Fibre helps.") else status 500).

(** The same two records asked for in the other order. *)
Definition first_fails : Env :=
  env_of ["200"; "100"]
    (fun pmc_id =>
       if String.eqb pmc_id "100" then ok (article "Diet" "Fibre helps.") else status 500).

(** Record 100 is fine; the connection drops while fetching 200. *)
Definition second_unreachable : Env :=
  env_of ["100"; "200"]
    (fun pmc_id =>
       if String.eqb pmc_id "100" then ok (article "Diet" "Fibre helps.") else Failed).

(** Record 100 is fine; the body sent for 200 is not well-formed XML. *)
Definition second_malformed : Env :=
  env_of ["100"; "200"]
    (fun pmc_id =>
       if String.eqb pmc_id "100" then ok (article "Diet" "Fibre helps.")
       else Answer {| status_code := 200; decoded := None |}).

(** One record, fetched without trouble, whose text has the word Error. *)
Definition mentions_error : Env :=
  env_of ["100"]
    (fun _ => ok (article "Diet" "Error bars show the standard deviation.")).

(** A stored document. *)
Definition stored (pmc_id heading : string) : json.value :=
  make_doc pmc_id
    {| title := Some heading;
       journal := Some "Gut";
       authors := ["Marie Curie"];
       date := "2020-5";
       abstract := "Short.";
       keywords := ["diet"] |}
    "Body text.".

(** A collection file of three documents. *)
Definition three_docs : string :=
  json.dumps (stored "100" "Fibre") +:+ Py.nl
    +:+ json.dumps (stored "200" "Salt") +:+ Py.nl
    +:+ json.dumps (stored "300" "Sugar") +:+ Py.nl.

Definition w_three : World :=
  {| trace := []; collection := Some three_docs; results_file := None |}.

(** The map loaded from [three_docs]. *)
Definition three_map : gmap string (list (string * json.value)) :=
  match Search.store_lines ∅ (Search.lines (Search.translate_newlines three_docs)) with
  | Return raw_docs => raw_docs
  | Raise _ => ∅
  end.

(** A world whose searcher returns [hits]. *)
Definition env_hits (hits : list Hit) : Env :=
  {| esearch := fun _ _ => Failed;
     efetch := fun _ => Failed;
     collection_writable := true;
     results_writable := true;
     extract_keywords := fun q => [q];
     searcher := fun _ _ => Return hits |}.

Definition two_hits : list Hit :=
  [{| docid := "PMC100"; score := 21 # 10 |};
   {| docid := "PMC300"; score := 15 # 10 |}].

(** The second hit is not in the collection. *)
Definition stray_hits : list Hit :=
  [{| docid := "PMC100"; score := 21 # 10 |};
   {| docid := "PMC999"; score := 18 # 10 |};
   {| docid := "PMC300"; score := 15 # 10 |}].

End Sample.

(** ** Runs of the writer and fields of a record *)

Module Run.

(** What one turn of the writer's loop does to the console, the network
    and the clock when the record fetch raises nothing. *)
Definition turn_events (env : Env) (pmc_id : string) : list Event :=
  Print (Processing pmc_id) :: Efetch pmc_id
    :: match Spec.doc_of env pmc_id with
       | Some _ => [Print (AddedToJsonl pmc_id); Sleep (34 # 100)]
       | None => [Print (Skipping pmc_id)]
       end.

(** The documents the writer keeps, in the order of the identifiers. *)
Definition kept_docs (env : Env) (pmc_ids : list string) : list json.value :=
  omap (Spec.doc_of env) pmc_ids.

(** The line of the file a document makes. *)
Definition line_of (doc : json.value) : string := json.dumps doc +:+ Py.nl.

(** The identifiers of the record fetches of a trace, in order. *)
Definition fetches (events : list Event) : list string :=
  flat_map (fun ev => match ev with Efetch pmc_id => [pmc_id] | _ => [] end) events.

(** An event that is neither a record fetch nor a pause. *)
Definition quiet (ev : Event) : bool :=
  match ev with Efetch _ | Sleep _ => false | _ => true end.


(** The characters the title cleaner deletes. *)
Definition invalid : list ascii :=
  [json.backslash; "/"; "*"; "?"; ":"; json.dquote; "<"; ">"; "|"]%char.

(** A message, and not a request or a pause. *)
Definition is_print (ev : Event) : bool :=
  match ev with Print _ => true | _ => false end.

End Run.

(** ** More sample runs *)

Module Cases.

(** Two records, both fetched without trouble and both kept. *)
Definition both_kept : Env :=
  Sample.env_of ["100"; "200"]
    (fun pmc_id => Sample.ok (Sample.article pmc_id "Fibre helps.")).

(** A lookup that finds nothing. *)
Definition nothing_found : Env :=
  Sample.env_of [] (fun _ => Sample.status 500).

(** Identifiers are found, and the directory cannot be written to. *)
Definition read_only : Env :=
  {| esearch := esearch Sample.second_fails;
     efetch := efetch Sample.second_fails;
     collection_writable := false;
     results_writable := true;
     extract_keywords := fun q => [q];
     searcher := fun _ _ => Return [] |}.

(** A world with a collection file left by an earlier run. *)
Definition w_old : World :=
  {| trace := []; collection := Some "old line"; results_file := None |}.


(** A collection file whose only line is not JSON. *)
Definition w_garbled : World :=
  {| trace := []; collection := Some "not json"; results_file := None |}.

(** A collection file whose second line is an object without an id. *)
Definition w_no_id : World :=
  {| trace := [];
     collection :=
       Some (json.dumps (Sample.stored "100" "Fibre") +:+ Py.nl
               +:+ "{}" +:+ Py.nl
               +:+ json.dumps (Sample.stored "300" "Sugar") +:+ Py.nl);
     results_file := None |}.

(** A document with an id, a title and a null abstract. *)
Definition null_abstract : list (string * json.value) :=
  [("id", json.JStr "PMC7"); ("title", json.JStr "Bran"); ("abstract", json.JNull)].

(** A collection file with a good document and that one. *)
Definition w_null_abstract : World :=
  {| trace := [];
     collection :=
       Some (json.dumps (Sample.stored "100" "Fibre") +:+ Py.nl
               +:+ json.dumps (json.JObj null_abstract) +:+ Py.nl);
     results_file := None |}.

Definition hits_null_abstract : list Hit :=
  [{| docid := "PMC100"; score := 21 # 10 |};
   {| docid := "PMC7"; score := 15 # 10 |};
   {| docid := "PMC100"; score := 1 # 10 |}].

(** The searcher fails. *)
Definition no_searcher : Env :=
  {| esearch := fun _ _ => Failed;
     efetch := fun _ => Failed;
     collection_writable := true;
     results_writable := true;
     extract_keywords := fun q => [q];
     searcher := fun _ _ => Raise SearchFailure |}.

(** The results file cannot be opened. *)
Definition no_results_file (hits : list Hit) : Env :=
  {| esearch := fun _ _ => Failed;
     efetch := fun _ => Failed;
     collection_writable := true;
     results_writable := false;
     extract_keywords := fun q => [q];
     searcher := fun _ _ => Return hits |}.

(** Two records found and kept, and a searcher that returns one of
    them and a stranger. *)
Definition found_and_searched : Env :=
  {| esearch := fun _ _ =>
       Answer {| status_code := 200;
                 decoded :=
                   Some {| esearchresult := Some {| idlist := Some ["100"; "200"] |} |} |};
     efetch := fun pmc_id => Sample.ok (Sample.article pmc_id "Fibre helps.");
     collection_writable := true;
     results_writable := true;
     extract_keywords := fun q => [q];
     searcher := fun _ _ =>
       Return [{| docid := "PMC200"; score := 21 # 10 |};
               {| docid := "PMC999"; score := 15 # 10 |}] |}.

(** One record, found under the identifier 100 and fetched without
    trouble. *)
Definition one_record (root : Element) : Env :=
  Sample.env_of ["100"] (fun _ => Sample.ok root).

(** Two hits on stored documents, the weaker one first. *)
Definition ascending_hits : list Hit :=
  [{| docid := "PMC100"; score := 15 # 10 |};
   {| docid := "PMC300"; score := 21 # 10 |}].

End Cases.

(** * Properties *)

(** ** Stepping through stateful code *)

Section Stepping.

Lemma bind_return {A B} (a : A) (k : A -> Result B) : (Return a ≫= k) = k a.
Proof. reflexivity. Qed.

Lemma bind_step {A B} (m : M A) (k : A -> M B) (w w1 : World) (a : A) :
  m w = (Return a, w1) -> (m ≫= k) w = k a w1.
Proof. intros H. unfold mbind, M_bind. by rewrite H. Qed.

Lemma try_except_returns {A} (body : M A) (handler : Exn -> option (M A))
    (w w1 : World) (a : A) :
  body w = (Return a, w1) -> try_except body handler w = (Return a, w1).
Proof. intros H. unfold try_except. by rewrite H. Qed.

Lemma print_returns (m : Message) (w : World) :
  print m w
  = (Return tt,
     {| trace := trace w ++ [Print m];
        collection := collection w;
        results_file := results_file w |}).
Proof. reflexivity. Qed.

Lemma emit_returns (ev : Event) (w : World) :
  emit ev w
  = (Return tt,
     {| trace := trace w ++ [ev];
        collection := collection w;
        results_file := results_file w |}).
Proof. reflexivity. Qed.

Lemma M_bind_assoc {A B C} (m : M A) (k1 : A -> M B) (k2 : B -> M C) (w : World) :
  ((m ≫= k1) ≫= k2) w = (m ≫= fun a => k1 a ≫= k2) w.
Proof. unfold mbind, M_bind. by destruct (m w) as [[a|e] w']. Qed.

Lemma M_ret_bind {A B} (a : A) (k : A -> M B) (w : World) :
  (mret a ≫= k) w = k a w.
Proof. reflexivity. Qed.

Lemma bind_raises {A B} (m : M A) (k : A -> M B) (w w1 : World) (e : Exn) :
  m w = (Raise e, w1) -> (m ≫= k) w = (Raise e, w1).
Proof. intros H. unfold mbind, M_bind. by rewrite H. Qed.

Lemma try_except_handles {A} (body : M A) (handler : Exn -> option (M A))
    (w w1 : World) (e : Exn) (h : M A) (r : Result A * World) :
  body w = (Raise e, w1) -> handler e = Some h -> h w1 = r ->
  try_except body handler w = r.
Proof. intros Hbody Hh <-. unfold try_except. by rewrite Hbody, Hh. Qed.

End Stepping.

Ltac run :=
  repeat first
    [ rewrite M_bind_assoc
    | rewrite M_ret_bind
    | rewrite (bind_step _ _ _ _ _ (print_returns _ _))
    | rewrite (bind_step _ _ _ _ _ (emit_returns _ _)) ].

(** ** What the record fetch returns *)

Section Fetched.

(** A record fetch answered with status 200 and a well-formed body
    returns the metadata and the text the normaliser makes of the
    record, and touches no file. *)
Lemma fetch_returns_record (env : Env) (pmc_id : string) (root : Element) (w : World) :
  efetch env pmc_id = Answer {| status_code := 200; decoded := Some root |} ->
  fetch_pmc_full_text env pmc_id w
  = (Return (Some (Normalizer.metadata_of pmc_id root), Normalizer.body_of root),
     {| trace := trace w ++ [Efetch pmc_id];
        collection := collection w;
        results_file := results_file w |}).
Proof.
  intros Hfetch. unfold fetch_pmc_full_text, requests_get, fromstring.
  rewrite Hfetch. run. reflexivity.
Qed.

End Fetched.

(** ** Dates *)

Section Dates.

Import Normalizer.

Lemma add_part_present (parts : list string) (t : string) (pub_date : Element) :
  add_part parts (ET.find t pub_date)
  = parts ++ match Spec.present t pub_date with Some s => [s] | None => [] end.
Proof.
  unfold add_part, Spec.present.
  destruct (ET.find t pub_date) as [e|]; [|by rewrite app_nil_r].
  destruct (text e) as [s|]; [|by rewrite app_nil_r].
  destruct (Py.truthy s); [done|by rewrite app_nil_r].
Qed.

Lemma date_of_pub_date (root pub_date : Element) :
  ET.find_desc "pub-date" root = Some pub_date ->
  date_of root
  = Spec.assemble_date (Spec.present "year" pub_date)
      (Spec.present "month" pub_date) (Spec.present "day" pub_date).
Proof.
  intros Hpd. unfold date_of. rewrite Hpd. cbv zeta.
  rewrite !add_part_present.
  destruct (Spec.present "year" pub_date) as [y|],
           (Spec.present "month" pub_date) as [m|],
           (Spec.present "day" pub_date) as [d|]; reflexivity.
Qed.

(** C5.  The date that the record fetch returns for a record is
    assembled from the first date element of the record: the parts
    among year, month, day that are present (a child with non-empty
    text), in that order, joined with a hyphen; it is the unknown-date
    sentinel when there is no date element or none of the parts is
    present; with a year and neither month nor day it is the year
    string alone. *)
Theorem date_assembly (env : Env) (pmc_id : string) (root : Element) (w : World) :
  efetch env pmc_id = Answer {| status_code := 200; decoded := Some root |} ->
  exists metadata full_text w',
    fetch_pmc_full_text env pmc_id w = (Return (Some metadata, full_text), w')
    /\ match ET.find_desc "pub-date" root with
       | Some pub_date =>
           date metadata
           = Spec.assemble_date (Spec.present "year" pub_date)
               (Spec.present "month" pub_date) (Spec.present "day" pub_date)
           /\ (forall y,
                 Spec.present "year" pub_date = Some y ->
                 Spec.present "month" pub_date = None ->
                 Spec.present "day" pub_date = None ->
                 date metadata = y)
           /\ (Spec.present "year" pub_date = None ->
               Spec.present "month" pub_date = None ->
               Spec.present "day" pub_date = None ->
               date metadata = Spec.unknown_date)
       | None => date metadata = Spec.unknown_date
       end.
Proof.
  intros Hfetch. eexists _, _, _.
  split; [exact (fetch_returns_record env pmc_id root w Hfetch)|].
  change (date (metadata_of pmc_id root)) with (date_of root).
  destruct (ET.find_desc "pub-date" root) as [pub_date|] eqn:Hpd.
  - pose proof (date_of_pub_date root pub_date Hpd) as Hd.
    split; [exact Hd|]. split.
    + intros y Hy Hm Hday. rewrite Hd, Hy, Hm, Hday. reflexivity.
    + intros Hy Hm Hday. rewrite Hd, Hy, Hm, Hday. reflexivity.
  - unfold date_of. rewrite Hpd. reflexivity.
Qed.

Lemma date_assembly_witness :
  exists metadata full_text w',
    fetch_pmc_full_text (Cases.one_record Sample.year_only) "100" Sample.w0
    = (Return (Some metadata, full_text), w')
    /\ date metadata = "2020".
Proof.
  destruct (date_assembly (Cases.one_record Sample.year_only) "100" Sample.year_only
              Sample.w0 eq_refl)
    as (metadata & full_text & w' & Hrun & H).
  exists metadata, full_text, w'. split; [exact Hrun|].
  change (ET.find_desc "pub-date" Sample.year_only)
    with (Some (Elem "pub-date" None [Sample.leaf "year" "2020"])) in H.
  destruct H as (_ & Hyear & _).
  apply Hyear; reflexivity.
Defined.

End Dates.


(** ** Authors *)

Section Authors.

Import Normalizer.






End Authors.


(** ** Body sentinels *)

Section Body.

Import Normalizer.

(** The writer's test finds its marker in the no-body sentinel. *)
Lemma skipped_not_available (metadata : option Metadata) :
  skipped metadata full_text_not_available = true.
Proof. destruct metadata; reflexivity. Qed.

Lemma fold_add_section (secs : list Element) :
  forall full_text,
    fold_left add_section secs full_text
    = full_text ++ List.filter Py.truthy (map section_text secs).
Proof.
  induction secs as [|sec secs IH]; intros full_text; [by rewrite app_nil_r|].
  simpl fold_left. rewrite IH. unfold add_section. simpl.
  destruct (Py.truthy (section_text sec)); [|done].
  by rewrite <- app_assoc.
Qed.

Lemma join_truthy (sep block : string) (blocks : list string) :
  Py.truthy block = true -> Py.join sep (block :: blocks) <> "".
Proof.
  intros Hblock. destruct block as [|c block]; [done|].
  destruct blocks; cbn [Py.join]; [discriminate|].
  change (String c block +:+ ?x) with (String c (block +:+ x)). discriminate.
Qed.

(** The text made of a record is never the empty string. *)
Lemma body_not_empty (root : Element) : body_of root <> "".
Proof.
  unfold body_of. destruct (ET.find_desc "body" root) as [body|]; [|done].
  cbv zeta. rewrite fold_add_section. cbn [app].
  destruct (List.filter Py.truthy (map section_text (ET.findall_desc "sec" body)))
    as [|block blocks] eqn:Hblocks; [done|].
  apply join_truthy.
  assert (In block (List.filter Py.truthy (map section_text (ET.findall_desc "sec" body))))
    as Hin by (rewrite Hblocks; by left).
  by apply List.filter_In in Hin as [_ ?].
Qed.

(** C4, as the code has it.  For a record without a body container
    the record fetch returns the sentinel "Full text not available for
    this article.", which the writer skips: no document is made of the
    record.  For a record with a body container and no section it
    returns another sentinel, "No readable text found.", which the
    writer does not skip.  Neither sentinel is the empty string. *)
Theorem body_sentinels (env : Env) (pmc_id : string) (root : Element) (w : World) :
  efetch env pmc_id = Answer {| status_code := 200; decoded := Some root |} ->
  exists metadata full_text w',
    fetch_pmc_full_text env pmc_id w = (Return (Some metadata, full_text), w')
    /\ (ET.find_desc "body" root = None ->
        full_text = "Full text not available for this article."
        /\ skipped (Some metadata) full_text = true
        /\ Spec.doc_of env pmc_id = None)
    /\ (forall body,
          ET.find_desc "body" root = Some body ->
          ET.findall_desc "sec" body = [] ->
          full_text = "No readable text found."
          /\ skipped (Some metadata) full_text = false
          /\ Spec.doc_of env pmc_id = Some (make_doc pmc_id metadata full_text))
    /\ full_text <> "".
Proof.
  intros Hfetch. eexists _, _, _.
  split; [exact (fetch_returns_record env pmc_id root w Hfetch)|].
  unfold Spec.doc_of, normalize. rewrite Hfetch. cbn [status_code decoded Z.eqb Pos.eqb].
  split; [|split].
  - intros Hbody. unfold body_of. rewrite Hbody. by repeat split.
  - intros body Hbody Hsec. unfold body_of. rewrite Hbody, Hsec. by repeat split.
  - apply body_not_empty.
Qed.

Lemma body_sentinels_witness :
  (exists metadata w',
      fetch_pmc_full_text (Cases.one_record Sample.no_body) "100" Sample.w0
      = (Return (Some metadata, "Full text not available for this article."), w')
      /\ Spec.doc_of (Cases.one_record Sample.no_body) "100" = None)
  /\ (exists metadata w',
        fetch_pmc_full_text (Cases.one_record Sample.empty_body) "100" Sample.w0
        = (Return (Some metadata, "No readable text found."), w')).
Proof.
  split.
  - destruct (body_sentinels (Cases.one_record Sample.no_body) "100" Sample.no_body
                Sample.w0 eq_refl)
      as (metadata & full_text & w' & Hrun & Hnone & _).
    destruct Hnone as (-> & _ & Hdoc); [reflexivity|].
    by exists metadata, w'.
  - destruct (body_sentinels (Cases.one_record Sample.empty_body) "100" Sample.empty_body
                Sample.w0 eq_refl)
      as (metadata & full_text & w' & Hrun & _ & Hempty & _).
    destruct (Hempty (Elem "body" None [])) as (-> & _); [reflexivity|reflexivity|].
    by exists metadata, w'.
Defined.

(** C4 as stated fails at a record with a body container and no
    section: the string returned for it is not the one returned for a
    missing body, the writer's test does not skip it, and a run of the
    writer that finds this record alone writes a line for it. *)
Lemma empty_body_not_skipped :
  ET.find_desc "body" Sample.empty_body = Some (Elem "body" None [])
  /\ ET.findall_desc "sec" (Elem "body" None []) = []
  /\ (fetch_pmc_full_text (Cases.one_record Sample.empty_body) "100" Sample.w0).1
     = Return (Some (metadata_of "100" Sample.empty_body), "No readable text found.")
  /\ (fetch_pmc_full_text (Cases.one_record Sample.no_body) "100" Sample.w0).1
     = Return (Some (metadata_of "100" Sample.no_body),
               "Full text not available for this article.")
  /\ skipped (Some (metadata_of "100" Sample.empty_body)) "No readable text found." = false
  /\ collection
       (download_pmc_articles_for_pyserini (Cases.one_record Sample.empty_body) "diet" 5
          Sample.w0).2
     = Some (json.dumps
               (make_doc "100" (metadata_of "100" Sample.empty_body)
                  "No readable text found.") +:+ Py.nl).
Proof. repeat split; vm_compute; reflexivity. Qed.

End Body.

(** ** Metadata defaults *)

Section Defaults.

Import Normalizer.

(** Each field falls back to its default when its element is missing. *)
Lemma absent_fields_default (pmc_id : string) (root : Element) :
  (ET.find_desc "article-title" root = None -> title_of pmc_id root = Some ("PMC_" +:+ pmc_id))
  /\ (ET.find_desc "journal-title" root = None -> journal_of root = Some "Unknown Journal")
  /\ (ET.find_desc "contrib-group" root = None -> authors_of root = [])
  /\ (ET.find_desc "pub-date" root = None -> date_of root = "Unknown Date")
  /\ (ET.find_desc "abstract" root = None -> abstract_of root = "")
  /\ (ET.find_desc "kwd-group" root = None -> keywords_of root = []).
Proof.
  unfold title_of, journal_of, authors_of, date_of, abstract_of, keywords_of.
  repeat split; by intros ->.
Qed.

(** The title is [None] exactly when the title element is there and has
    no leading text; the same for the journal. *)
Lemma title_none_iff (pmc_id : string) (root : Element) :
  title_of pmc_id root = None
  <-> exists e, ET.find_desc "article-title" root = Some e /\ text e = None.
Proof.
  unfold title_of. destruct (ET.find_desc "article-title" root) as [e|]; split.
  - intros H. by exists e.
  - by intros (e' & [= <-] & H).
  - done.
  - by intros (e' & ? & _).
Qed.

Lemma journal_none_iff (root : Element) :
  journal_of root = None
  <-> exists e, ET.find_desc "journal-title" root = Some e /\ text e = None.
Proof.
  unfold journal_of. destruct (ET.find_desc "journal-title" root) as [e|]; split.
  - intros H. by exists e.
  - by intros (e' & [= <-] & H).
  - done.
  - by intros (e' & ? & _).
Qed.

(** A record with none of the elements looked for gets every default. *)
Lemma bare_record_defaults :
  metadata_of "42" Sample.bare
  = {| title := Some "PMC_42";
       journal := Some "Unknown Journal";
       authors := [];
       date := "Unknown Date";
       abstract := "";
       keywords := [] |}.
Proof. reflexivity. Qed.

(** C1, at a record whose title starts with markup and whose journal
    title is empty: both fields come out as [None], and the line written
    for the record carries [null] for them. *)
Theorem null_title_and_journal :
  title (metadata_of "7654321" Sample.italic_title) = None
  /\ journal (metadata_of "7654321" Sample.italic_title) = None
  /\ make_doc "7654321" (metadata_of "7654321" Sample.italic_title)
       (body_of Sample.italic_title)
     = json.JObj
         [("id", json.JStr "PMC7654321");
          ("title", json.JNull);
          ("journal", json.JNull);
          ("authors", json.JArr []);
          ("date", json.JStr "Unknown Date");
          ("abstract", json.JStr "");
          ("keywords", json.JArr []);
          ("contents", json.JStr (Py.nl +:+ "## Results" +:+ Py.nl +:+ "Growth was fast." +:+ Py.nl))].
Proof. repeat split. Qed.

End Defaults.

(** ** Failures *)

Section Failures.

Import Sample.

(** X1. The identifier lookup returns, whatever the service does: a dropped
    connection, a status other than 200 and an undecodable body all end
    in the empty list. *)
Lemma id_lookup_fails_soft (env : Env) (query : string) (max_results : Z) (w : World) :
  exists ids w',
    fetch_pmc_ids env query max_results w = (Return ids, w')
    /\ collection w' = collection w
    /\ match esearch env query max_results with
       | Failed => ids = []
       | Answer response =>
           if (status_code response =? 200)%Z then
             match decoded response with
             | Some data =>
                 ids = default [] (idlist (default {| idlist := None |} (esearchresult data)))
             | None => ids = []
             end
           else ids = []
       end.
Proof.
  unfold fetch_pmc_ids, try_except, requests_get, response_json, print, emit, raise.
  unfold mbind, M_bind, mret, M_ret. simpl.
  destruct (esearch env query max_results) as [|response]; simpl; [by eauto|].
  destruct (status_code response =? 200)%Z; simpl; [|by eauto].
  destruct (decoded response); simpl; by eauto.
Qed.

(** X3. A status other than 200 on a record fetch is turned into the pair
    of no metadata and a message, which the writer skips. *)
Lemma bad_status_is_skipped (env : Env) (pmc_id : string) (response : Response Element)
    (w : World) :
  efetch env pmc_id = Answer response ->
  status_code response <> 200%Z ->
  exists w',
    fetch_pmc_full_text env pmc_id w = (Return (None, Normalizer.error_retrieving), w')
    /\ collection w' = collection w
    /\ skipped None Normalizer.error_retrieving = true.
Proof.
  intros Hreply Hcode.
  unfold fetch_pmc_full_text, requests_get, emit, mbind, M_bind, mret, M_ret.
  rewrite Hreply. simpl.
  destruct (Z.eqb_spec (status_code response) 200) as [?|_]; [done|].
  by eauto.
Qed.

(** C2, at a run in which the second record fetch finds the service
    unreachable, and at one in which it gets a body that is not
    well-formed: the exception leaves the writer and ends the run,
    though the collection file was opened without trouble. *)
Theorem record_fetch_failure_ends_run :
  (download_pmc_articles_for_pyserini second_unreachable "diet" 500 w0).1
  = Raise RequestException
  /\ (main second_unreachable "diet" w0).1 = Raise RequestException
  /\ (download_pmc_articles_for_pyserini second_malformed "diet" 500 w0).1
     = Raise ParseError
  /\ (main second_malformed "diet" w0).1 = Raise ParseError
  /\ collection_writable second_unreachable = true
  /\ collection_writable second_malformed = true.
Proof. repeat split; vm_compute; reflexivity. Qed.

(** The spec's example: with identifiers 100 and 200 and a failing
    status for 200, the file holds one line, the one of 100. *)
Lemma second_fails_one_line :
  (download_pmc_articles_for_pyserini second_fails "diet" 500 w0).1 = Return tt
  /\ collection (download_pmc_articles_for_pyserini second_fails "diet" 500 w0).2
     = Some (json.dumps
               (make_doc "100"
                  (Normalizer.metadata_of "100" (article "Diet" "Fibre helps."))
                  (Normalizer.body_of (article "Diet" "Fibre helps.")))
             +:+ Py.nl).
Proof. split; vm_compute; reflexivity. Qed.

(** C3, at a run with one identifier whose record is fetched and
    normalised without trouble and whose text has the word Error in it:
    the writer skips it and the file stays empty. *)
Theorem error_word_skips_article :
  (fetch_pmc_full_text mentions_error "100" w0).1
  = Return (Some (Normalizer.metadata_of "100"
                    (article "Diet" "Error bars show the standard deviation.")),
            Py.nl +:+ "## Methods" +:+ Py.nl
              +:+ "Error bars show the standard deviation." +:+ Py.nl)
  /\ (download_pmc_articles_for_pyserini mentions_error "diet" 500 w0).1 = Return tt
  /\ collection (download_pmc_articles_for_pyserini mentions_error "diet" 500 w0).2
     = Some ""
  /\ trace (download_pmc_articles_for_pyserini mentions_error "diet" 500 w0).2
     = [Esearch "diet" 500; Print (StatusCode 200); Print ResponseText;
        Print ResponseHeaders; Print (FoundArticles 1);
        Print (Processing "100"); Efetch "100"; Print (Skipping "100");
        Print (SavedEntries 1)].
Proof. repeat split; vm_compute; reflexivity. Qed.

(** C9, at a run in which the first of two identifiers is skipped: the
    second fetch follows the first with no pause in between. *)
Theorem skip_drops_delay :
  trace (download_pmc_articles_for_pyserini first_fails "diet" 500 w0).2
  = [Esearch "diet" 500; Print (StatusCode 200); Print ResponseText;
     Print ResponseHeaders; Print (FoundArticles 2);
     Print (Processing "200"); Efetch "200"; Print (Skipping "200");
     Print (Processing "100"); Efetch "100"; Print (AddedToJsonl "100");
     Sleep (34 # 100); Print (SavedEntries 2)]
  /\ Spec.throttled
       (trace (download_pmc_articles_for_pyserini first_fails "diet" 500 w0).2)
     = false.
Proof. split; vm_compute; reflexivity. Qed.

(** With the identifiers in the other order nothing is skipped before
    the last fetch, and the pause is there. *)
Lemma no_skip_keeps_delay :
  Spec.throttled
    (trace (download_pmc_articles_for_pyserini second_fails "diet" 500 w0).2)
  = true.
Proof. vm_compute; reflexivity. Qed.

End Failures.

(** ** Serialising and parsing a document *)

Section Roundtrip.

Import json.

Lemma append_nil (b : string) : "" +:+ b = b.
Proof. reflexivity. Qed.

Lemma append_cons (c : ascii) (a b : string) : String c a +:+ b = String c (a +:+ b).
Proof. reflexivity. Qed.

Lemma append_assoc (a b c : string) : (a +:+ b) +:+ c = a +:+ (b +:+ c).
Proof.
  induction a as [|x a IH]; [done|].
  by rewrite !append_cons, IH.
Qed.

Lemma length_append (a b : string) :
  String.length (a +:+ b) = String.length a + String.length b.
Proof.
  induction a as [|x a IH]; [done|].
  rewrite append_cons. simpl. by rewrite IH.
Qed.

Ltac flatten := repeat first [rewrite append_assoc | rewrite append_cons | rewrite append_nil].

Lemma scanstring_escape_char (c : ascii) (t : string) :
  scanstring (escape_char c +:+ t) = prepend c (scanstring t).
Proof.
  destruct c as [b0 b1 b2 b3 b4 b5 b6 b7].
  destruct b0, b1, b2, b3.
  all: destruct b4, b5, b6, b7.
  all: reflexivity.
Qed.

Lemma scanstring_escape (s rest : string) :
  scanstring (escape s +:+ String dquote rest) = Return (s, rest).
Proof.
  induction s as [|c s IH]; [reflexivity|].
  simpl escape. rewrite append_assoc, scanstring_escape_char, IH. reflexivity.
Qed.

Lemma append_empty (t : string) : t +:+ "" = t.
Proof. induction t as [|x t IH]; [done|]. by rewrite append_cons, IH. Qed.

Lemma join_cons (t : string) (texts : list string) :
  Py.join ", " (t :: texts) = t +:+ more texts.
Proof.
  revert t. induction texts as [|u texts IH]; intros t.
  - simpl. by rewrite append_empty.
  - change (Py.join ", " (t :: u :: texts)) with (t +:+ ", " +:+ Py.join ", " (u :: texts)).
    by rewrite IH.
Qed.

Lemma dumps_starts (v : value) :
  exists c s, dumps v = String c s /\ is_ws c = false /\ Ascii.eqb c "]" = false.
Proof.
  destruct v as [|[]|s|items|pairs]; by eexists _, _.
Qed.

Lemma skip_ws_dumps (v : value) (rest : string) :
  skip_ws (dumps v +:+ rest) = dumps v +:+ rest.
Proof.
  destruct (dumps_starts v) as (c & s & -> & Hc & _). rewrite append_cons. simpl. by rewrite Hc.
Qed.

Lemma scan_string (fuel : nat) (s rest : string) :
  scan_once (S fuel) (encode_basestring_ascii s +:+ rest) = Return (JStr s, rest).
Proof.
  unfold encode_basestring_ascii. flatten.
  change (scan_once (S fuel) (String dquote ?x)) with (scanstring x ≫= λ '(str, rest), Return (JStr str, rest)).
  by rewrite scanstring_escape.
Qed.


Lemma array_items_S (fuel : nat) (s : string) (acc : list value) :
  array_items (S fuel) s acc
  = '(v, rest) ← scan_once fuel s;
    match skip_ws rest with
    | String c s1 =>
        if Ascii.eqb c "]" then Return (JArr (rev (v :: acc)), s1)
        else if Ascii.eqb c "," then array_items fuel (skip_ws s1) (v :: acc)
        else Raise JSONDecodeError
    | "" => Raise JSONDecodeError
    end.
Proof. reflexivity. Qed.

Lemma array_items_dumps (items : list value) :
  forall (item : value) (acc : list value) (fuel : nat) (rest : string),
    (forall i, In i (item :: items) -> decodes i) ->
    list_sum (map (fun i => S (nodes i)) (item :: items)) <= fuel ->
    array_items fuel (dumps item +:+ more (map dumps items) +:+ String "]" rest) acc
    = Return (JArr (rev acc ++ item :: items), rest).
Proof.
  induction items as [|item' items IH]; intros item acc fuel rest Hdec Hfuel.
  - destruct fuel as [|fuel]; [simpl in Hfuel; lia|].
    rewrite array_items_S.
    rewrite (Hdec item (or_introl eq_refl)) by (simpl in Hfuel; lia).
    rewrite bind_return. reflexivity.
  - destruct fuel as [|fuel]; [simpl in Hfuel; lia|].
    rewrite array_items_S.
    rewrite (Hdec item (or_introl eq_refl)) by (simpl in Hfuel; lia).
    rewrite bind_return.
    change (map dumps (item' :: items)) with (dumps item' :: map dumps items).
    change (more (dumps item' :: map dumps items))
      with (", " +:+ dumps item' +:+ more (map dumps items)).
    flatten.
    change (skip_ws (String "," ?x)) with (String "," x).
    cbv iota beta.
    change (Ascii.eqb "," "]") with false.
    change (Ascii.eqb "," ",") with true.
    cbv iota.
    change (skip_ws (String " " ?x)) with (skip_ws x).
    rewrite skip_ws_dumps.
    rewrite IH.
    + change (rev (item :: acc)) with (rev acc ++ [item]).
      by rewrite <- app_assoc.
    + intros i Hi. apply Hdec. by right.
    + simpl in Hfuel |- *. lia.
Qed.


Lemma value_ind_nested (P : value -> Prop) :
  P JNull ->
  (forall b, P (JBool b)) ->
  (forall s, P (JStr s)) ->
  (forall items, Forall P items -> P (JArr items)) ->
  (forall pairs, Forall (fun kv => P (snd kv)) pairs -> P (JObj pairs)) ->
  forall v, P v.
Proof.
  intros Hnull Hbool Hstr Harr Hobj.
  fix IH 1. intros [|b|s|items|pairs].
  - exact Hnull.
  - apply Hbool.
  - apply Hstr.
  - apply Harr. induction items as [|i items IHitems]; constructor; [apply IH|exact IHitems].
  - apply Hobj. induction pairs as [|[k v] pairs IHpairs]; constructor; [apply IH|exact IHpairs].
Qed.

Lemma object_items_S (fuel : nat) (s : string) (acc : list (string * value)) :
  object_items (S fuel) s acc
  = '(key, rest) ← scanstring s;
    match skip_ws rest with
    | String c s1 =>
        if Ascii.eqb c ":" then
          '(v, rest') ← scan_once fuel (skip_ws s1);
          match skip_ws rest' with
          | String c2 s2 =>
              if Ascii.eqb c2 "}" then Return (JObj (dict (rev ((key, v) :: acc))), s2)
              else if Ascii.eqb c2 "," then
                match skip_ws s2 with
                | String c3 s3 =>
                    if Ascii.eqb c3 dquote
                    then object_items fuel s3 ((key, v) :: acc)
                    else Raise JSONDecodeError
                | "" => Raise JSONDecodeError
                end
              else Raise JSONDecodeError
          | "" => Raise JSONDecodeError
          end
        else Raise JSONDecodeError
    | "" => Raise JSONDecodeError
    end.
Proof. reflexivity. Qed.

Lemma object_items_dumps (pairs : list (string * value)) :
  forall (k : string) (v : value) (acc : list (string * value)) (fuel : nat) (rest : string),
    (forall kv, In kv ((k, v) :: pairs) -> decodes (snd kv)) ->
    list_sum (map (fun kv => S (nodes (snd kv))) ((k, v) :: pairs)) <= fuel ->
    object_items fuel
      (escape k +:+ String dquote (String ":" (String " "
         (dumps v +:+ more (map pair_text pairs) +:+ String "}" rest)))) acc
    = Return (JObj (dict (rev acc ++ (k, v) :: pairs)), rest).
Proof.
  induction pairs as [|[k' v'] pairs IH]; intros k v acc fuel rest Hdec Hfuel.
  - destruct fuel as [|fuel]; [simpl in Hfuel; lia|].
    rewrite object_items_S, scanstring_escape, bind_return.
    change (skip_ws (String ":" ?x)) with (String ":" x). cbv iota beta.
    change (Ascii.eqb ":" ":") with true. cbv iota.
    change (skip_ws (String " " ?x)) with (skip_ws x).
    rewrite skip_ws_dumps.
    rewrite (Hdec (k, v) (or_introl eq_refl)) by (simpl in Hfuel |- *; lia).
    rewrite bind_return. reflexivity.
  - destruct fuel as [|fuel]; [simpl in Hfuel; lia|].
    rewrite object_items_S, scanstring_escape, bind_return.
    change (skip_ws (String ":" ?x)) with (String ":" x). cbv iota beta.
    change (Ascii.eqb ":" ":") with true. cbv iota.
    change (skip_ws (String " " ?x)) with (skip_ws x).
    rewrite skip_ws_dumps.
    rewrite (Hdec (k, v) (or_introl eq_refl)) by (simpl in Hfuel |- *; lia).
    rewrite bind_return.
    change (map pair_text ((k', v') :: pairs)) with (pair_text (k', v') :: map pair_text pairs).
    change (more (pair_text (k', v') :: map pair_text pairs))
      with (", " +:+ pair_text (k', v') +:+ more (map pair_text pairs)).
    unfold pair_text at 1, encode_basestring_ascii. cbn [fst snd].
    flatten.
    change (skip_ws (String "," ?x)) with (String "," x). cbv iota beta.
    change (Ascii.eqb "," "}") with false.
    change (Ascii.eqb "," ",") with true. cbv iota.
    change (skip_ws (String " " (String dquote ?x))) with (String dquote x). cbv iota beta.
    change (Ascii.eqb dquote dquote) with true. cbv iota.
    rewrite IH.
    + change (rev ((k, v) :: acc)) with (rev acc ++ [(k, v)]).
      by rewrite <- app_assoc.
    + intros kv Hkv. apply Hdec. by right.
    + simpl in Hfuel |- *. lia.
Qed.


Lemma existsb_eqb_In (k : string) (ks : list string) :
  existsb (String.eqb k) ks = true <-> In k ks.
Proof.
  rewrite existsb_exists. split.
  - intros (x & Hx & Heq). apply String.eqb_eq in Heq. by subst.
  - intros Hk. exists k. split; [done|apply String.eqb_refl].
Qed.

Lemma distinct_NoDup (ks : list string) : distinct ks = true <-> List.NoDup ks.
Proof.
  induction ks as [|k ks IH]; simpl.
  - split; [constructor|done].
  - rewrite andb_true_iff, negb_true_iff, IH. split.
    + intros [Hk Hks]. constructor; [|done].
      intros Hin. apply existsb_eqb_In in Hin. congruence.
    + intros Hnd. inversion Hnd as [|? ? Hk Hks]; subst. split; [|done].
      destruct (existsb (String.eqb k) ks) eqn:E; [|done].
      apply existsb_eqb_In in E. done.
Qed.

Lemma dict_set_fresh (k : string) (v : value) (d : list (string * value)) :
  ~ In k (map fst d) -> dict_set k v d = d ++ [(k, v)].
Proof.
  induction d as [|[k' v'] d IH]; intros Hk; simpl; [done|].
  destruct (String.eqb_spec k' k) as [->|_].
  - exfalso. apply Hk. by left.
  - rewrite IH; [done|]. intros Hin. apply Hk. by right.
Qed.

Lemma fold_dict_set (pairs acc : list (string * value)) :
  List.NoDup (map fst (acc ++ pairs)) ->
  fold_left (fun d kv => dict_set (fst kv) (snd kv) d) pairs acc = acc ++ pairs.
Proof.
  revert acc. induction pairs as [|[k v] pairs IH]; intros acc Hnd; simpl.
  - by rewrite app_nil_r.
  - rewrite dict_set_fresh.
    + rewrite IH; rewrite <- app_assoc; done.
    + rewrite map_app in Hnd. simpl in Hnd.
      apply List.NoDup_remove_2 in Hnd.
      intros Hin. apply Hnd. apply in_or_app. by left.
Qed.

Lemma dict_distinct (pairs : list (string * value)) :
  distinct (map fst pairs) = true -> dict pairs = pairs.
Proof.
  intros Hd. unfold dict. rewrite fold_dict_set; [done|].
  by apply distinct_NoDup.
Qed.

Lemma scan_once_array (fuel : nat) (item : value) (tail : string) :
  scan_once (S fuel) (String "[" (dumps item +:+ tail))
  = array_items fuel (dumps item +:+ tail) [].
Proof.
  destruct (dumps_starts item) as (c & s & -> & Hws & Hclose).
  rewrite append_cons.
  change (scan_once (S fuel) (String "[" ?x))
    with (match skip_ws x with
          | String c1 s1 =>
              if Ascii.eqb c1 "]" then Return (JArr [], s1)
              else array_items fuel (String c1 s1) []
          | "" => Raise JSONDecodeError
          end).
  simpl skip_ws. rewrite Hws. by rewrite Hclose.
Qed.

Lemma scan_once_object (fuel : nat) (tail : string) :
  scan_once (S fuel) (String "{" (String dquote tail)) = object_items fuel tail [].
Proof. reflexivity. Qed.

(** Every Python value is read back from its text, whatever follows
    it, by a decoder with at least [nodes v] units of fuel. *)
Lemma dumps_decodes (v : value) : is_dict_tree v = true -> decodes v.
Proof.
  induction v as [|b|s|items IH|pairs IH] using value_ind_nested; intros Hwf fuel rest Hfuel.
  - destruct fuel as [|fuel]; [simpl in Hfuel; lia|]. reflexivity.
  - destruct fuel as [|fuel]; [simpl in Hfuel; lia|]. by destruct b.
  - destruct fuel as [|fuel]; [simpl in Hfuel; lia|]. apply scan_string.
  - destruct fuel as [|fuel]; [simpl in Hfuel; lia|].
    destruct items as [|item items]; [reflexivity|].
    change (dumps (JArr (item :: items)))
      with ("[" +:+ Py.join ", " (map dumps (item :: items)) +:+ "]").
    change (map dumps (item :: items)) with (dumps item :: map dumps items).
    rewrite join_cons. flatten. rewrite scan_once_array.
    rewrite array_items_dumps; [done| |simpl in Hfuel |- *; lia].
    intros i Hi. rewrite List.Forall_forall in IH. apply IH; [done|].
    change (forallb is_dict_tree (item :: items) = true) in Hwf.
    rewrite forallb_forall in Hwf. by apply Hwf.
  - destruct fuel as [|fuel]; [simpl in Hfuel; lia|].
    destruct pairs as [|[k v] pairs]; [reflexivity|].
    change (dumps (JObj ((k, v) :: pairs)))
      with ("{" +:+ Py.join ", " (map pair_text ((k, v) :: pairs)) +:+ "}").
    change (map pair_text ((k, v) :: pairs)) with (pair_text (k, v) :: map pair_text pairs).
    rewrite join_cons. unfold pair_text at 1, encode_basestring_ascii. cbn [fst snd].
    flatten. rewrite scan_once_object.
    change (distinct (map fst ((k, v) :: pairs))
            && forallb (fun kv => is_dict_tree (snd kv)) ((k, v) :: pairs) = true) in Hwf.
    apply andb_true_iff in Hwf as [Hkeys Hvals].
    rewrite object_items_dumps; [|..|simpl in Hfuel |- *; lia].
    + simpl rev. rewrite app_nil_l. rewrite dict_distinct; done.
    + intros kv Hkv. rewrite List.Forall_forall in IH. apply IH; [done|].
      rewrite forallb_forall in Hvals. by apply Hvals.
Qed.

Lemma length_join (sep : string) (texts : list string) :
  list_sum (map String.length texts) <= String.length (Py.join sep texts).
Proof.
  induction texts as [|t [|u texts] IH]; simpl; [lia|lia|].
  rewrite !length_append. simpl in IH. lia.
Qed.

Lemma list_sum_le {A} (f g : A -> nat) (l : list A) :
  Forall (fun x => f x <= g x) l -> list_sum (map f l) <= list_sum (map g l).
Proof. induction 1; simpl; lia. Qed.

Lemma nodes_lt_length (v : value) : nodes v < String.length (dumps v).
Proof.
  induction v as [|b|s|items IH|pairs IH] using value_ind_nested.
  - simpl. lia.
  - destruct b; simpl; lia.
  - change (dumps (JStr s)) with (String dquote (escape s +:+ String dquote "")).
    simpl String.length. rewrite length_append. simpl. lia.
  - change (dumps (JArr items)) with ("[" +:+ Py.join ", " (map dumps items) +:+ "]").
    rewrite append_cons, append_nil. simpl String.length. rewrite length_append.
    pose proof (length_join ", " (map dumps items)) as Hj.
    rewrite map_map in Hj.
    pose proof (list_sum_le (fun i => S (nodes i)) (fun i => String.length (dumps i))
                  items IH) as Hsum.
    simpl. lia.
  - change (dumps (JObj pairs)) with ("{" +:+ Py.join ", " (map pair_text pairs) +:+ "}").
    rewrite append_cons, append_nil. simpl String.length. rewrite length_append.
    pose proof (length_join ", " (map pair_text pairs)) as Hj.
    rewrite map_map in Hj.
    assert (Forall (fun kv => S (nodes (snd kv)) <= String.length (pair_text kv)) pairs)
      as Hall.
    { eapply Forall_impl; [exact IH|]. intros [k v] Hkv. unfold pair_text.
      rewrite !length_append. simpl in Hkv |- *. lia. }
    pose proof (list_sum_le _ _ pairs Hall) as Hsum.
    simpl. lia.
Qed.

(** [json.loads] reads a Python value back from the line the writer
    makes of it. *)
Lemma loads_dumps_line (v : value) :
  is_dict_tree v = true -> loads (dumps v +:+ Py.nl) = Return v.
Proof.
  intros Hwf. unfold loads. rewrite skip_ws_dumps.
  rewrite (dumps_decodes v Hwf).
  - reflexivity.
  - rewrite length_append. pose proof (nodes_lt_length v). lia.
Qed.


Lemma no_break_append (a b : string) :
  Search.no_break (a +:+ b) = Search.no_break a && Search.no_break b.
Proof.
  induction a as [|c a IH]; [done|].
  rewrite append_cons. simpl. rewrite IH. by rewrite !andb_assoc.
Qed.

Lemma no_break_escape_char (c : ascii) : Search.no_break (escape_char c) = true.
Proof.
  destruct c as [b0 b1 b2 b3 b4 b5 b6 b7].
  destruct b0, b1, b2, b3.
  all: destruct b4, b5, b6, b7.
  all: reflexivity.
Qed.

Lemma no_break_escape (s : string) : Search.no_break (escape s) = true.
Proof.
  induction s as [|c s IH]; [done|].
  simpl escape. by rewrite no_break_append, no_break_escape_char, IH.
Qed.

Lemma no_break_encode (s : string) : Search.no_break (encode_basestring_ascii s) = true.
Proof.
  unfold encode_basestring_ascii.
  change (String dquote ?x) with (String dquote "" +:+ x).
  by rewrite !no_break_append, no_break_escape.
Qed.

Lemma no_break_more (texts : list string) :
  Forall (fun t => Search.no_break t = true) texts -> Search.no_break (more texts) = true.
Proof.
  induction 1 as [|t texts Ht _ IH]; [done|].
  change (more (t :: texts)) with (", " +:+ t +:+ more texts).
  by rewrite !no_break_append, Ht, IH.
Qed.

Lemma no_break_join (texts : list string) :
  Forall (fun t => Search.no_break t = true) texts -> Search.no_break (Py.join ", " texts) = true.
Proof.
  destruct 1 as [|t texts Ht Hts]; [done|].
  by rewrite join_cons, no_break_append, Ht, no_break_more.
Qed.

Lemma no_break_dumps (v : value) : Search.no_break (dumps v) = true.
Proof.
  induction v as [|b|s|items IH|pairs IH] using value_ind_nested.
  - done.
  - by destruct b.
  - apply no_break_encode.
  - change (dumps (JArr items)) with ("[" +:+ Py.join ", " (map dumps items) +:+ "]").
    rewrite !no_break_append, no_break_join; [done|].
    by apply Forall_map.
  - change (dumps (JObj pairs)) with ("{" +:+ Py.join ", " (map pair_text pairs) +:+ "}").
    rewrite !no_break_append, no_break_join; [done|].
    apply Forall_map. eapply Forall_impl; [exact IH|].
    intros [k v] Hv. unfold pair_text.
    rewrite !no_break_append, no_break_encode. exact Hv.
Qed.

Lemma translate_no_break (s t : string) :
  Search.no_break s = true ->
  Search.translate_newlines (s +:+ t) = s +:+ Search.translate_newlines t.
Proof.
  induction s as [|c s IH]; intros Hs; [done|].
  simpl in Hs. apply andb_true_iff in Hs as [Hc Hs].
  apply andb_true_iff in Hc as [Hcr _]. apply negb_true_iff in Hcr.
  rewrite !append_cons. simpl. rewrite Hcr. by rewrite IH.
Qed.

Lemma lines_no_break (s t : string) :
  Search.no_break s = true ->
  Search.lines (s +:+ String Search.lf t) = (s +:+ String Search.lf "") :: Search.lines t.
Proof.
  induction s as [|c s IH]; intros Hs; [done|].
  simpl in Hs. apply andb_true_iff in Hs as [Hc Hs].
  apply andb_true_iff in Hc as [_ Hlf]. apply negb_true_iff in Hlf.
  rewrite !append_cons. simpl. rewrite Hlf. by rewrite IH.
Qed.

Lemma strings_are_dict_trees (l : list string) : forallb is_dict_tree (map JStr l) = true.
Proof. by induction l. Qed.

Lemma make_doc_is_dict_tree (pmc_id : string) (metadata : Metadata) (full_text : string) :
  is_dict_tree (make_doc pmc_id metadata full_text) = true.
Proof.
  unfold make_doc, opt_str.
  destruct (title metadata), (journal metadata); simpl;
    by rewrite !strings_are_dict_trees.
Qed.


End Roundtrip.

(** ** The decoder's fuel *)

Section Fuel.

Import json.

Lemma bind_Return_inv {A B} (m : Result A) (k : A -> Result B) (b : B) :
  (m ≫= k) = Return b -> exists a, m = Return a /\ k a = Return b.
Proof. destruct m as [a|e]; [|done]. intros H. by exists a. Qed.

Lemma bind_Raise_inv {A B} (m : Result A) (k : A -> Result B) (e : Exn) :
  (m ≫= k) = Raise e -> m = Raise e \/ exists a, m = Return a /\ k a = Raise e.
Proof.
  destruct m as [a|e']; intros H.
  - right. by exists a.
  - left. by injection H as ->.
Qed.

Lemma skip_ws_length (s : string) : String.length (skip_ws s) <= String.length s.
Proof.
  induction s as [|c s IH]; simpl; [lia|].
  destruct (is_ws c); simpl; lia.
Qed.

Lemma prepend_Return_inv (c : ascii) (r : Result (string * string)) (str rest : string) :
  prepend c r = Return (str, rest) -> exists str', r = Return (str', rest).
Proof.
  destruct r as [[str' rest']|e]; [|done]. intros [= _ <-]. by exists str'.
Qed.

Lemma prepend_Raise_inv (c : ascii) (r : Result (string * string)) (e : Exn) :
  prepend c r = Raise e -> r = Raise e.
Proof. destruct r as [[str' rest']|e']; [done|]. by intros [= <-]. Qed.

Lemma scanstring_progress (n : nat) :
  forall s str rest,
    String.length s <= n ->
    scanstring s = Return (str, rest) -> String.length rest < String.length s.
Proof.
  induction n as [|n IH]; intros s str rest Hn Hscan.
  - destruct s; [done|simpl in Hn; lia].
  - destruct s as [|c s1]; [done|]. simpl in Hn. simpl in Hscan.
    destruct (Ascii.eqb c dquote).
    { injection Hscan as _ <-. simpl. lia. }
    destruct (Ascii.eqb c backslash).
    + destruct s1 as [|e s2]; [done|]. simpl in Hn.
      destruct (Ascii.eqb e "u").
      * destruct s2 as [|h1 [|h2 [|h3 [|h4 s6]]]]; try done.
        destruct (hex4 h1 h2 h3 h4) as [k|]; [|done].
        destruct (k <? 256)%nat; [|done].
        apply prepend_Return_inv in Hscan as (str' & Hscan).
        apply IH in Hscan; simpl in *; lia.
      * destruct (unescape e); [|done].
        apply prepend_Return_inv in Hscan as (str' & Hscan).
        apply IH in Hscan; simpl in *; lia.
    + destruct (nat_of_ascii c <? 32)%nat; [done|].
      apply prepend_Return_inv in Hscan as (str' & Hscan).
      apply IH in Hscan; simpl in *; lia.
Qed.

Lemma scanstring_raises (n : nat) :
  forall s e,
    String.length s <= n ->
    scanstring s = Raise e -> e = JSONDecodeError \/ e = Unmodelled.
Proof.
  induction n as [|n IH]; intros s e Hn Hscan.
  - destruct s; [|simpl in Hn; lia]. injection Hscan as <-. by left.
  - destruct s as [|c s1]; [injection Hscan as <-; by left|]. simpl in Hn. simpl in Hscan.
    destruct (Ascii.eqb c dquote); [done|].
    destruct (Ascii.eqb c backslash).
    + destruct s1 as [|e' s2]; [injection Hscan as <-; by left|]. simpl in Hn.
      destruct (Ascii.eqb e' "u").
      * destruct s2 as [|h1 [|h2 [|h3 [|h4 s6]]]];
          try (injection Hscan as <-; by left).
        destruct (hex4 h1 h2 h3 h4) as [k|]; [|injection Hscan as <-; by left].
        destruct (k <? 256)%nat; [|injection Hscan as <-; by right].
        apply prepend_Raise_inv in Hscan.
        apply IH in Hscan; [done|simpl in *; lia].
      * destruct (unescape e'); [|injection Hscan as <-; by left].
        apply prepend_Raise_inv in Hscan.
        apply IH in Hscan; [done|simpl in *; lia].
    + destruct (nat_of_ascii c <? 32)%nat; [injection Hscan as <-; by left|].
      apply prepend_Raise_inv in Hscan.
      apply IH in Hscan; [done|simpl in *; lia].
Qed.

Lemma strip_prefix_length (p s rest : string) :
  strip_prefix p s = Some rest -> String.length rest + String.length p = String.length s.
Proof.
  revert s. induction p as [|a p IH]; intros s H; simpl in H.
  - injection H as <-. simpl. lia.
  - destruct s as [|b s]; [done|]. destruct (Ascii.eqb a b); [|done].
    apply IH in H. simpl. lia.
Qed.


Lemma scan_once_S (fuel : nat) (s : string) :
  scan_once (S fuel) s
  = match s with
    | "" => Raise JSONDecodeError
    | String c s' =>
        if Ascii.eqb c dquote then
          '(str, rest) ← scanstring s'; Return (JStr str, rest)
        else if Ascii.eqb c "{" then
          match skip_ws s' with
          | String c1 s1 =>
              if Ascii.eqb c1 "}" then Return (JObj [], s1)
              else if Ascii.eqb c1 dquote then object_items fuel s1 []
              else Raise JSONDecodeError
          | "" => Raise JSONDecodeError
          end
        else if Ascii.eqb c "[" then
          match skip_ws s' with
          | String c1 s1 =>
              if Ascii.eqb c1 "]" then Return (JArr [], s1)
              else array_items fuel (String c1 s1) []
          | "" => Raise JSONDecodeError
          end
        else
          match strip_prefix "null" s, strip_prefix "true" s, strip_prefix "false" s with
          | Some rest, _, _ => Return (JNull, rest)
          | _, Some rest, _ => Return (JBool true, rest)
          | _, _, Some rest => Return (JBool false, rest)
          | _, _, _ =>
              if starts_number s then Raise Unmodelled else Raise JSONDecodeError
          end
    end.
Proof. reflexivity. Qed.

Ltac ws_bound s H :=
  let L := fresh "L" in
  pose proof (skip_ws_length s) as L; rewrite H in L; simpl in L.

Lemma decoder_progress (fuel : nat) : progress_at fuel.
Proof.
  induction fuel as [|fuel (IHscan & IHarr & IHobj)]; [by repeat split|].
  repeat split.
  - intros s v rest H. rewrite scan_once_S in H.
    destruct s as [|c s']; [done|]. simpl String.length.
    destruct (Ascii.eqb c dquote).
    { apply bind_Return_inv in H as ([str r] & Hstr & [= _ <-]).
      apply (scanstring_progress _ _ _ _ (le_n _)) in Hstr. lia. }
    destruct (Ascii.eqb c "{").
    { destruct (skip_ws s') as [|c1 s1] eqn:Hws; [done|]. ws_bound s' Hws.
      destruct (Ascii.eqb c1 "}"); [injection H as _ <-; lia|].
      destruct (Ascii.eqb c1 dquote); [|done].
      apply IHobj in H. lia. }
    destruct (Ascii.eqb c "[").
    { destruct (skip_ws s') as [|c1 s1] eqn:Hws; [done|]. ws_bound s' Hws.
      destruct (Ascii.eqb c1 "]"); [injection H as _ <-; lia|].
      apply IHarr in H. simpl in H. lia. }
    destruct (strip_prefix "null" (String c s')) as [r|] eqn:Hnull.
    { injection H as _ <-. apply strip_prefix_length in Hnull. simpl in Hnull. lia. }
    destruct (strip_prefix "true" (String c s')) as [r|] eqn:Htrue.
    { injection H as _ <-. apply strip_prefix_length in Htrue. simpl in Htrue. lia. }
    destruct (strip_prefix "false" (String c s')) as [r|] eqn:Hfalse.
    { injection H as _ <-. apply strip_prefix_length in Hfalse. simpl in Hfalse. lia. }
    by destruct (starts_number (String c s')).
  - intros s acc v rest H. rewrite array_items_S in H.
    apply bind_Return_inv in H as ([v1 r1] & Hv & H).
    apply IHscan in Hv.
    destruct (skip_ws r1) as [|c s1] eqn:Hws; [done|]. ws_bound r1 Hws.
    destruct (Ascii.eqb c "]"); [injection H as _ <-; lia|].
    destruct (Ascii.eqb c ","); [|done].
    apply IHarr in H. pose proof (skip_ws_length s1). lia.
  - intros s acc v rest H. rewrite object_items_S in H.
    apply bind_Return_inv in H as ([key r1] & Hkey & H).
    apply (scanstring_progress _ _ _ _ (le_n _)) in Hkey.
    destruct (skip_ws r1) as [|c s1] eqn:Hws; [done|]. ws_bound r1 Hws.
    destruct (Ascii.eqb c ":"); [|done].
    apply bind_Return_inv in H as ([v1 r2] & Hv & H).
    apply IHscan in Hv. pose proof (skip_ws_length s1).
    destruct (skip_ws r2) as [|c2 s2] eqn:Hws2; [done|]. ws_bound r2 Hws2.
    destruct (Ascii.eqb c2 "}"); [injection H as _ <-; lia|].
    destruct (Ascii.eqb c2 ","); [|done].
    destruct (skip_ws s2) as [|c3 s3] eqn:Hws3; [done|]. ws_bound s2 Hws3.
    destruct (Ascii.eqb c3 dquote); [|done].
    apply IHobj in H. lia.
Qed.

Ltac leaf H := first [done | injection H as <-; by auto].

Lemma decoder_fuel (fuel : nat) : raises_only_decode_errors fuel.
Proof.
  induction fuel as [|fuel (IHscan & IHarr & IHobj)].
  { repeat split; intros; lia. }
  destruct (decoder_progress fuel) as (Pscan & Parr & Pobj).
  repeat split.
  - intros s e Hfuel H. rewrite scan_once_S in H.
    destruct s as [|c s']; [leaf H|]. simpl String.length in Hfuel.
    destruct (Ascii.eqb c dquote).
    { apply bind_Raise_inv in H as [H|([str r] & _ & H)]; [|done].
      by apply (scanstring_raises _ _ _ (le_n _)) in H. }
    destruct (Ascii.eqb c "{").
    { destruct (skip_ws s') as [|c1 s1] eqn:Hws; [leaf H|]. ws_bound s' Hws.
      destruct (Ascii.eqb c1 "}"); [done|].
      destruct (Ascii.eqb c1 dquote); [|leaf H].
      apply IHobj in H; [done|lia]. }
    destruct (Ascii.eqb c "[").
    { destruct (skip_ws s') as [|c1 s1] eqn:Hws; [leaf H|]. ws_bound s' Hws.
      destruct (Ascii.eqb c1 "]"); [done|].
      apply IHarr in H; [done|simpl; lia]. }
    destruct (strip_prefix "null" (String c s')); [done|].
    destruct (strip_prefix "true" (String c s')); [done|].
    destruct (strip_prefix "false" (String c s')); [done|].
    destruct (starts_number (String c s')); leaf H.
  - intros s acc e Hfuel H. rewrite array_items_S in H.
    apply bind_Raise_inv in H as [H|([v1 r1] & Hv & H)].
    { apply IHscan in H; [done|lia]. }
    apply Pscan in Hv.
    destruct (skip_ws r1) as [|c s1] eqn:Hws; [leaf H|]. ws_bound r1 Hws.
    destruct (Ascii.eqb c "]"); [done|].
    destruct (Ascii.eqb c ","); [|leaf H].
    pose proof (skip_ws_length s1).
    apply IHarr in H; [done|lia].
  - intros s acc e Hfuel H. rewrite object_items_S in H.
    apply bind_Raise_inv in H as [H|([key r1] & Hkey & H)].
    { by apply (scanstring_raises _ _ _ (le_n _)) in H. }
    apply (scanstring_progress _ _ _ _ (le_n _)) in Hkey.
    destruct (skip_ws r1) as [|c s1] eqn:Hws; [leaf H|]. ws_bound r1 Hws.
    destruct (Ascii.eqb c ":"); [|leaf H].
    pose proof (skip_ws_length s1).
    apply bind_Raise_inv in H as [H|([v1 r2] & Hv & H)].
    { apply IHscan in H; [done|lia]. }
    apply Pscan in Hv.
    destruct (skip_ws r2) as [|c2 s2] eqn:Hws2; [leaf H|]. ws_bound r2 Hws2.
    destruct (Ascii.eqb c2 "}"); [done|].
    destruct (Ascii.eqb c2 ","); [|leaf H].
    destruct (skip_ws s2) as [|c3 s3] eqn:Hws3; [leaf H|]. ws_bound s2 Hws3.
    destruct (Ascii.eqb c3 dquote); [|leaf H].
    apply IHobj in H; [done|lia].
Qed.

(** [json.loads] never runs out of fuel: it returns a value, raises
    [JSONDecodeError], or meets text the embedding does not cover. *)
Lemma loads_raises (s : string) (e : Exn) :
  loads s = Raise e -> e = JSONDecodeError \/ e = Unmodelled.
Proof.
  intros H. unfold loads in H.
  apply bind_Raise_inv in H as [H|([v rest] & _ & H)].
  - destruct (decoder_fuel (S (2 * String.length s))) as (Hscan & _).
    apply Hscan in H; [done|]. pose proof (skip_ws_length s). lia.
  - destruct (skip_ws rest); [done|]. injection H as <-. by left.
Qed.

End Fuel.

(** ** Ranked results *)

Section Ranking.

Import Search.

Lemma sliceable_lookup (raw_docs : gmap string (list (string * json.value)))
    (k : string) (data : list (string * json.value)) :
  Spec.sliceable raw_docs = true -> raw_docs !! k = Some data -> Spec.abstract_ok data = true.
Proof.
  unfold Spec.sliceable. rewrite forallb_forall. intros Hall Hk.
  apply (Hall (k, data)). apply list_elem_of_In. by apply elem_of_map_to_list.
Qed.

Lemma rank_result_for raw_docs i hit :
  rank (result_for raw_docs i hit) = i + 1
  /\ doc_id (result_for raw_docs i hit) = docid hit
  /\ score_of (result_for raw_docs i hit) = score hit.
Proof.
  unfold result_for. destruct (raw_docs !! docid hit) as [[|kv data]|]; done.
Qed.

Lemma result_for_joined raw_docs i hit data :
  raw_docs !! docid hit = Some data -> data <> [] ->
  result_for raw_docs i hit = Spec.joined i hit data.
Proof.
  intros Hk Hne. unfold result_for. rewrite Hk. destruct data; [congruence|reflexivity].
Qed.

Lemma result_for_missing raw_docs i hit :
  raw_docs !! docid hit = None -> result_for raw_docs i hit = Spec.not_found i hit.
Proof. intros Hk. unfold result_for. by rewrite Hk. Qed.

(** Reporting a result changes the console only, and it returns when
    the abstract of the result can be cut. *)
Lemma report_returns raw_docs i hit w :
  (forall data, raw_docs !! docid hit = Some data -> Spec.abstract_ok data = true) ->
  exists w', report (result_for raw_docs i hit) w = (Return tt, w')
             /\ collection w' = collection w /\ results_file w' = results_file w.
Proof.
  intros Hok. unfold result_for.
  destruct (raw_docs !! docid hit) as [[|kv data]|] eqn:Hk; try (by eexists).
  specialize (Hok _ eq_refl). unfold Spec.abstract_ok in Hok.
  unfold report, print, emit, slice200, raise. unfold mbind, M_bind, mret, M_ret.
  destruct (get "abstract" (kv :: data)) as [[| | | |]|]; try done; by eexists.
Qed.

Lemma rank_hits_results raw_docs hits :
  Spec.sliceable raw_docs = true ->
  forall i acc w,
  exists w', rank_hits raw_docs i hits acc w = (Return (acc ++ results_from raw_docs i hits), w')
             /\ collection w' = collection w /\ results_file w' = results_file w.
Proof.
  intros Hs. induction hits as [|hit hits IH]; intros i acc w.
  - exists w. simpl. by rewrite app_nil_r.
  - destruct (report_returns raw_docs i hit w) as (w1 & Hrep & Hc1 & Hr1).
    { intros data Hk. by eapply sliceable_lookup. }
    destruct (IH (S i) (acc ++ [result_for raw_docs i hit]) w1) as (w2 & Hloop & Hc2 & Hr2).
    exists w2. split; [|split; congruence].
    simpl. unfold mbind at 1, M_bind at 1. rewrite Hrep, Hloop.
    by rewrite <- app_assoc.
Qed.

Lemma results_from_length raw_docs i hits :
  length (results_from raw_docs i hits) = length hits.
Proof. revert i. induction hits as [|h hits IH]; intros i; simpl; [done|by rewrite IH]. Qed.

Lemma results_from_lookup raw_docs hits :
  forall i j hit, hits !! j = Some hit ->
    results_from raw_docs i hits !! j = Some (result_for raw_docs (i + j) hit).
Proof.
  induction hits as [|h hits IH]; intros i j hit Hj; [done|].
  destruct j as [|j]; simpl in *.
  - injection Hj as ->. by rewrite Nat.add_0_r.
  - rewrite (IH (S i) j hit Hj). do 2 f_equal. lia.
Qed.

Lemma results_from_ranks raw_docs hits i :
  map rank (results_from raw_docs i hits) = seq (i + 1) (length hits).
Proof.
  revert i. induction hits as [|h hits IH]; intros i; simpl; [done|].
  rewrite IH. destruct (rank_result_for raw_docs i h) as (-> & _). reflexivity.
Qed.

Lemma results_from_ids raw_docs hits i :
  map doc_id (results_from raw_docs i hits) = map docid hits.
Proof.
  revert i. induction hits as [|h hits IH]; intros i; simpl; [done|].
  rewrite IH. f_equal. by destruct (rank_result_for raw_docs i h) as (_ & -> & _).
Qed.

Lemma results_from_scores raw_docs hits i :
  map score_of (results_from raw_docs i hits) = map score hits.
Proof.
  revert i. induction hits as [|h hits IH]; intros i; simpl; [done|].
  rewrite IH. f_equal. by destruct (rank_result_for raw_docs i h) as (_ & _ & ->).
Qed.


Lemma store_line_has_ids raw_docs line raw_docs' :
  Spec.has_ids raw_docs -> store_line raw_docs line = Return raw_docs' -> Spec.has_ids raw_docs'.
Proof.
  intros Hids. unfold store_line.
  destruct (json.loads line) as [[| | | |pairs]|]; try done.
  rewrite bind_return.
  destruct (get "id" pairs) as [[| |k| |]|] eqn:Hid; try done;
    intros [= <-]; try done.
  intros k' data. destruct (decide (k = k')) as [<-|Hne].
  - rewrite lookup_insert_eq. by intros [= <-].
  - rewrite lookup_insert_ne by done. apply Hids.
Qed.

Lemma store_lines_has_ids ls :
  forall raw_docs raw_docs',
    Spec.has_ids raw_docs -> store_lines raw_docs ls = Return raw_docs' -> Spec.has_ids raw_docs'.
Proof.
  induction ls as [|l ls IH]; intros raw_docs raw_docs' Hids; simpl.
  - by intros [= <-].
  - destruct (store_line raw_docs l) as [m|] eqn:Hl; [|done].
    rewrite bind_return. apply IH. by eapply store_line_has_ids.
Qed.

Lemma loaded_nonempty text raw_docs k data :
  store_lines ∅ (lines (translate_newlines text)) = Return raw_docs ->
  raw_docs !! k = Some data -> data <> [].
Proof.
  intros Hload Hk.
  assert (Spec.has_ids raw_docs) as Hids.
  { eapply store_lines_has_ids; [|exact Hload]. intros k' d. by rewrite lookup_empty. }
  apply Hids in Hk. by destruct data.
Qed.

(** With the collection loaded and the hits returned, [run_search]
    returns what the loop over the hits builds. *)
Lemma run_search_results (env : Env) (query text : string) (w : World) raw_docs hits :
  collection w = Some text ->
  store_lines ∅ (lines (translate_newlines text)) = Return raw_docs ->
  searcher env (Py.join " " (extract_keywords env query)) TOP_K = Return hits ->
  Spec.sliceable raw_docs = true ->
  exists w', run_search env query w = (Return (Some (results_from raw_docs 0 hits)), w').
Proof.
  intros Hfile Hload Hsearch Hs.
  unfold run_search. cbv zeta.
  rewrite (bind_step _ _ _ _ _ (print_returns _ w)).
  erewrite bind_step; cycle 1.
  { apply try_except_returns. erewrite bind_step; [reflexivity|].
    unfold load_metadata. cbn [collection]. by rewrite Hfile, Hload. }
  cbv beta iota. rewrite Hsearch.
  rewrite (bind_step _ _ _ _ _ (print_returns _ _)).
  match goal with |- context [rank_hits raw_docs 0 hits [] ≫= _] =>
    match goal with |- context [(_ ≫= _) ?w1 = _] =>
      destruct (rank_hits_results raw_docs hits Hs 0 [] w1) as (w2 & Hloop & _ & _) end end.
  rewrite (bind_step _ _ _ _ _ Hloop). rewrite app_nil_l.
  unfold save_results.
  destruct (results_writable env).
  - erewrite bind_step; [|apply print_returns].
    rewrite (bind_step _ _ _ _ _ (print_returns _ _)). by eexists.
  - erewrite bind_step; [|apply print_returns].
    rewrite (bind_step _ _ _ _ _ (print_returns _ _)). by eexists.
Qed.


(** C6, as the code has it.  With the collection loaded and the hits
    of the searcher at hand, the query runner returns one result for
    each hit, in the order in which the searcher returned the hits: it
    does not sort them.  The result of the i-th hit has rank i and the
    identifier and the score of the hit, unchanged, so the scores of
    the results go down exactly when those of the hits do; a hit whose
    identifier is in the loaded map carries the stored date, journal,
    authors, title and abstract of that document.  The stored abstracts
    are strings or lists, as the writer stores them, so that printing
    their first 200 items does not raise. *)
Theorem ranked_results (env : Env) (query text : string) (w : World)
    (raw_docs : gmap string (list (string * json.value))) (hits : list Hit) :
  collection w = Some text ->
  store_lines ∅ (lines (translate_newlines text)) = Return raw_docs ->
  searcher env (Py.join " " (extract_keywords env query)) TOP_K = Return hits ->
  Spec.sliceable raw_docs = true ->
  exists results w',
    run_search env query w = (Return (Some results), w')
    /\ map rank results = seq 1 (length hits)
    /\ map doc_id results = map docid hits
    /\ map score_of results = map score hits
    /\ (Spec.descending (map score_of results) <-> Spec.descending (map score hits))
    /\ (forall i hit data,
          hits !! i = Some hit ->
          raw_docs !! docid hit = Some data ->
          results !! i = Some (Spec.joined i hit data)).
Proof.
  intros Hfile Hload Hsearch Hs.
  destruct (run_search_results env query text w raw_docs hits Hfile Hload Hsearch Hs)
    as (w' & Hrun).
  exists (results_from raw_docs 0 hits), w'.
  split; [exact Hrun|].
  split; [apply (results_from_ranks raw_docs hits 0)|].
  split; [apply results_from_ids|].
  split; [apply results_from_scores|].
  split; [by rewrite results_from_scores|].
  intros i hit data Hi Hk.
  rewrite (results_from_lookup raw_docs hits 0 i hit Hi).
  rewrite Nat.add_0_l. f_equal. apply result_for_joined; [done|].
  by eapply loaded_nonempty.
Qed.

Lemma ranked_results_witness :
  exists results w',
    run_search (Sample.env_hits Sample.two_hits) "fibre" Sample.w_three
    = (Return (Some results), w')
    /\ map rank results = [1; 2]
    /\ map doc_id results = ["PMC100"; "PMC300"]
    /\ map score_of results = [21 # 10; 15 # 10]
    /\ results !! 1
       = Some (Joined 2 "PMC300" (15 # 10) (json.JStr "2020-5") (json.JStr "Gut")
                 (json.JArr [json.JStr "Marie Curie"]) (json.JStr "Sugar")
                 (json.JStr "Short.")).
Proof.
  destruct (ranked_results (Sample.env_hits Sample.two_hits) "fibre" Sample.three_docs
              Sample.w_three Sample.three_map Sample.two_hits)
    as (results & w' & Hrun & Hranks & Hids & Hscores & _ & Hjoin).
  - reflexivity.
  - vm_compute; reflexivity.
  - reflexivity.
  - vm_compute; reflexivity.
  - exists results, w'. repeat split; try assumption.
    rewrite (Hjoin 1 {| docid := "PMC300"; score := 15 # 10 |}
               (match Sample.stored "300" "Sugar" with
                | json.JObj pairs => pairs
                | _ => []
                end)).
    + reflexivity.
    + reflexivity.
    + vm_compute; reflexivity.
Defined.

(** C6 as stated fails when the searcher returns the weaker hit first:
    the query runner gives the hits ranks 1 and 2 in that order, and the
    scores of the results go up. *)
Lemma ascending_hits_stay_ascending :
  exists results w',
    run_search (Sample.env_hits Cases.ascending_hits) "fibre" Sample.w_three
    = (Return (Some results), w')
    /\ map rank results = [1; 2]
    /\ map doc_id results = ["PMC100"; "PMC300"]
    /\ map score_of results = [15 # 10; 21 # 10]
    /\ ~ Spec.descending (map score_of results).
Proof.
  destruct (run_search_results (Sample.env_hits Cases.ascending_hits) "fibre"
              Sample.three_docs Sample.w_three Sample.three_map Cases.ascending_hits)
    as (w' & Hrun).
  - reflexivity.
  - vm_compute; reflexivity.
  - reflexivity.
  - vm_compute; reflexivity.
  - exists (results_from Sample.three_map 0 Cases.ascending_hits), w'.
    split; [exact Hrun|]. repeat split.
    rewrite results_from_scores. intros [Hle _]. by apply Hle.
Qed.

(** C7.  A hit whose identifier is not in the loaded map gets a result
    all the same, with its rank, identifier and score and the marker
    "Not found in local data file", and with none of the metadata
    fields; the loop goes on to the hits after it, and the run returns
    a result for every hit. *)
Theorem missing_hit_reported (env : Env) (query text : string) (w : World)
    (raw_docs : gmap string (list (string * json.value))) (hits : list Hit) :
  collection w = Some text ->
  store_lines ∅ (lines (translate_newlines text)) = Return raw_docs ->
  searcher env (Py.join " " (extract_keywords env query)) TOP_K = Return hits ->
  Spec.sliceable raw_docs = true ->
  (exists results w',
     run_search env query w = (Return (Some results), w')
     /\ length results = length hits
     /\ (forall i hit,
           hits !! i = Some hit ->
           raw_docs !! docid hit = None ->
           results !! i = Some (Spec.not_found i hit)))
  /\ (forall i hit rest acc w1,
        raw_docs !! docid hit = None ->
        exists w2,
          rank_hits raw_docs i (hit :: rest) acc w1
          = rank_hits raw_docs (S i) rest (acc ++ [Spec.not_found i hit]) w2).
Proof.
  intros Hfile Hload Hsearch Hs. split.
  - destruct (run_search_results env query text w raw_docs hits Hfile Hload Hsearch Hs)
      as (w' & Hrun).
    exists (results_from raw_docs 0 hits), w'.
    split; [exact Hrun|]. split; [apply results_from_length|].
    intros i hit Hi Hk.
    rewrite (results_from_lookup raw_docs hits 0 i hit Hi).
    rewrite Nat.add_0_l. f_equal. by apply result_for_missing.
  - intros i hit rest acc w1 Hk.
    change (rank_hits raw_docs i (hit :: rest) acc w1)
      with ((report (result_for raw_docs i hit)
               ≫= fun _ => rank_hits raw_docs (S i) rest
                             (acc ++ [result_for raw_docs i hit])) w1).
    rewrite (result_for_missing raw_docs i hit Hk).
    eexists. erewrite bind_step; [reflexivity|]. reflexivity.
Qed.

Lemma missing_hit_reported_witness :
  exists results w',
    run_search (Sample.env_hits Sample.stray_hits) "fibre" Sample.w_three
    = (Return (Some results), w')
    /\ length results = 3
    /\ results !! 1
       = Some (Missing 2 "PMC999" (18 # 10) "Not found in local data file").
Proof.
  destruct (missing_hit_reported (Sample.env_hits Sample.stray_hits) "fibre"
              Sample.three_docs Sample.w_three Sample.three_map Sample.stray_hits)
    as ((results & w' & Hrun & Hlen & Hmiss) & _).
  - reflexivity.
  - vm_compute; reflexivity.
  - reflexivity.
  - vm_compute; reflexivity.
  - exists results, w'. split; [exact Hrun|]. split; [exact Hlen|].
    apply (Hmiss 1 {| docid := "PMC999"; score := 18 # 10 |}).
    + reflexivity.
    + vm_compute; reflexivity.
Defined.

(** X16. The query runner absorbs a missing collection file, a line that is
    not JSON and any failure of the searcher: it reports and returns
    nothing. *)
Lemma query_runner_fails_soft (env : Env) (query : string) (w : World) :
  (collection w = None ->
   exists w', run_search env query w = (Return None, w')
              /\ last (trace w') = Some (Print JsonlNotFound))
  /\ (forall text,
        collection w = Some text ->
        store_lines ∅ (lines (translate_newlines text)) = Raise JSONDecodeError ->
        exists w', run_search env query w = (Return None, w')
                   /\ last (trace w') = Some (Print InvalidJson))
  /\ (forall text raw_docs e,
        collection w = Some text ->
        store_lines ∅ (lines (translate_newlines text)) = Return raw_docs ->
        searcher env (Py.join " " (extract_keywords env query)) TOP_K = Raise e ->
        exists w', run_search env query w = (Return None, w')
                   /\ last (trace w') = Some (Print SearchErrorMsg)).
Proof.
  split; [|split].
  - intros Hfile. unfold run_search. cbv zeta.
    rewrite (bind_step _ _ _ _ _ (print_returns _ w)).
    erewrite bind_step; cycle 1.
    { eapply try_except_handles.
      - apply bind_raises. unfold load_metadata. cbn [collection]. by rewrite Hfile.
      - reflexivity.
      - reflexivity. }
    eexists. split; [reflexivity|]. cbn [trace]. by rewrite last_snoc.
  - intros text Hfile Hload. unfold run_search. cbv zeta.
    rewrite (bind_step _ _ _ _ _ (print_returns _ w)).
    erewrite bind_step; cycle 1.
    { eapply try_except_handles.
      - apply bind_raises. unfold load_metadata. cbn [collection]. by rewrite Hfile, Hload.
      - reflexivity.
      - reflexivity. }
    eexists. split; [reflexivity|]. cbn [trace]. by rewrite last_snoc.
  - intros text raw_docs e Hfile Hload Hsearch. unfold run_search. cbv zeta.
    rewrite (bind_step _ _ _ _ _ (print_returns _ w)).
    erewrite bind_step; cycle 1.
    { apply try_except_returns. erewrite bind_step; [reflexivity|].
      unfold load_metadata. cbn [collection]. by rewrite Hfile, Hload. }
    cbv beta iota. rewrite Hsearch.
    rewrite (bind_step _ _ _ _ _ (print_returns _ _)).
    eexists. split; [reflexivity|]. cbn [trace]. by rewrite last_snoc.
Qed.

End Ranking.

(** ** From the writer to the query runner *)

Section Writer.

(** What one turn of the writer's loop does to the file, when the
    record fetch raises nothing. *)
Lemma process_id_collection (env : Env) (pmc_id : string) (w : World) :
  Spec.answers env pmc_id = true ->
  exists w',
    process_id env pmc_id w = (Return tt, w')
    /\ collection w'
       = match Spec.doc_of env pmc_id with
         | Some doc => Some (default "" (collection w) +:+ json.dumps doc +:+ Py.nl)
         | None => collection w
         end.
Proof.
  unfold Spec.answers, Spec.doc_of, process_id, fetch_pmc_full_text, requests_get, fromstring.
  intros Hans.
  destruct (efetch env pmc_id) as [|response]; [done|].
  run.
  destruct (status_code response =? 200)%Z.
  - destruct (decoded response) as [root|]; [|simpl in Hans; done].
    unfold Normalizer.normalize. run.
    destruct (skipped (Some (Normalizer.metadata_of pmc_id root)) (Normalizer.body_of root)).
    + run. eexists. split; reflexivity.
    + erewrite bind_step; [|reflexivity]. run.
      eexists. split; reflexivity.
  - run. eexists. split; reflexivity.
Qed.

Lemma for_each_collection (env : Env) (pmc_ids : list string) :
  Forall (fun pmc_id => Spec.answers env pmc_id = true) pmc_ids ->
  forall (w : World) (text : string),
    collection w = Some text ->
    exists w',
      for_each pmc_ids (process_id env) w = (Return tt, w')
      /\ collection w' = Some (text +:+ Spec.written env pmc_ids).
Proof.
  induction 1 as [|pmc_id pmc_ids Hans _ IH]; intros w text Hfile.
  - exists w. split; [done|]. simpl. by rewrite append_empty.
  - destruct (process_id_collection env pmc_id w Hans) as (w1 & Hstep & Hfile1).
    rewrite Hfile in Hfile1. cbn [default] in Hfile1.
    simpl for_each. rewrite (bind_step _ _ _ _ _ Hstep).
    simpl Spec.written.
    destruct (Spec.doc_of env pmc_id) as [doc|].
    + destruct (IH w1 _ Hfile1) as (w2 & Hrest & Hfile2).
      exists w2. split; [done|]. rewrite Hfile2. by rewrite !append_assoc.
    + destruct (IH w1 _ Hfile1) as (w2 & Hrest & Hfile2). by exists w2.
Qed.

(** The writer as a whole: when the lookup returns identifiers, the
    file can be opened and no record fetch raises, the run returns and
    the file holds one line for each identifier that is not skipped, in
    the order of the identifiers. *)
Lemma download_writes (env : Env) (query : string) (max_results : Z) (w : World)
    (pmc_ids : list string) :
  (fetch_pmc_ids env query max_results w).1 = Return pmc_ids ->
  pmc_ids <> [] ->
  collection_writable env = true ->
  Forall (fun pmc_id => Spec.answers env pmc_id = true) pmc_ids ->
  exists w',
    download_pmc_articles_for_pyserini env query max_results w = (Return tt, w')
    /\ collection w' = Some (Spec.written env pmc_ids).
Proof.
  intros Hids Hne Hopen Hans. unfold download_pmc_articles_for_pyserini.
  destruct (fetch_pmc_ids env query max_results w) as [r w1] eqn:Hfetch.
  simpl in Hids. subst r.
  rewrite (bind_step _ _ _ _ _ Hfetch).
  destruct pmc_ids as [|pmc_id pmc_ids]; [done|].
  run. unfold open_collection. rewrite Hopen.
  erewrite bind_step; [|reflexivity].
  edestruct (for_each_collection env (pmc_id :: pmc_ids) Hans) as (w2 & Hloop & Hfile);
    [|rewrite (bind_step _ _ _ _ _ Hloop)].
  { reflexivity. }
  run. eexists. split; [reflexivity|]. cbn [collection]. by rewrite Hfile.
Qed.


Lemma doc_of_make_doc (env : Env) (pmc_id : string) (doc : json.value) :
  Spec.doc_of env pmc_id = Some doc ->
  exists metadata full_text, doc = make_doc pmc_id metadata full_text.
Proof.
  unfold Spec.doc_of, Normalizer.normalize.
  destruct (efetch env pmc_id) as [|response]; [done|].
  destruct (status_code response =? 200)%Z; [|done].
  destruct (decoded response) as [root|]; [|done].
  destruct (skipped _ _); [done|].
  intros [= <-]. by eexists _, _.
Qed.

Lemma store_line_make_doc (raw_docs : gmap string (list (string * json.value)))
    (pmc_id : string) (metadata : Metadata) (full_text : string) :
  exists pairs,
    make_doc pmc_id metadata full_text = json.JObj pairs
    /\ Spec.abstract_ok pairs = true
    /\ Search.store_line raw_docs
         (json.dumps (make_doc pmc_id metadata full_text) +:+ Py.nl)
       = Return (<["PMC" +:+ pmc_id := pairs]> raw_docs).
Proof.
  eexists. split; [reflexivity|]. split; [reflexivity|].
  unfold Search.store_line.
  rewrite loads_dumps_line by apply make_doc_is_dict_tree.
  reflexivity.
Qed.

Lemma load_written (env : Env) (pmc_ids : list string) :
  forall raw_docs,
    Search.store_lines raw_docs
      (Search.lines (Search.translate_newlines (Spec.written env pmc_ids)))
    = Return (Spec.stored_docs env pmc_ids raw_docs).
Proof.
  induction pmc_ids as [|pmc_id pmc_ids IH]; intros raw_docs; [done|].
  simpl Spec.written. simpl Spec.stored_docs.
  destruct (Spec.doc_of env pmc_id) as [doc|] eqn:Hdoc; [|apply IH].
  destruct (doc_of_make_doc env pmc_id doc Hdoc) as (metadata & full_text & ->).
  destruct (store_line_make_doc raw_docs pmc_id metadata full_text)
    as (pairs & Hpairs & _ & Hstore).
  rewrite translate_no_break by apply no_break_dumps.
  change (Py.nl +:+ ?x) with (String Search.lf x).
  change (Search.translate_newlines (String Search.lf ?x))
    with (String Search.lf (Search.translate_newlines x)).
  rewrite lines_no_break by apply no_break_dumps.
  change (Search.store_lines raw_docs (?l :: ?ls))
    with (Search.store_line raw_docs l ≫= fun m => Search.store_lines m ls).
  change (String Search.lf "") with Py.nl.
  rewrite Hstore, bind_return, Hpairs. apply IH.
Qed.

Lemma sliceable_spec (raw_docs : gmap string (list (string * json.value))) :
  Spec.sliceable raw_docs = true
  <-> map_Forall (fun _ data => Spec.abstract_ok data = true) raw_docs.
Proof.
  unfold Spec.sliceable. rewrite forallb_forall, map_Forall_to_list, List.Forall_forall.
  split; intros H [k data] Hin; apply (H (k, data) Hin).
Qed.

Lemma stored_docs_sliceable (env : Env) (pmc_ids : list string) :
  forall raw_docs,
    Spec.sliceable raw_docs = true ->
    Spec.sliceable (Spec.stored_docs env pmc_ids raw_docs) = true.
Proof.
  induction pmc_ids as [|pmc_id pmc_ids IH]; intros raw_docs Hs; [done|].
  simpl. destruct (Spec.doc_of env pmc_id) as [doc|] eqn:Hdoc; [|by apply IH].
  destruct (doc_of_make_doc env pmc_id doc Hdoc) as (metadata & full_text & ->).
  destruct (store_line_make_doc raw_docs pmc_id metadata full_text)
    as (pairs & Hpairs & Hok & _).
  rewrite Hpairs. apply IH. apply sliceable_spec.
  apply map_Forall_insert_2; [done|]. by apply sliceable_spec.
Qed.

(** What the writer wrote, the query runner loads: the map holds the
    documents kept, each under its [id], and every abstract in it is a
    string. *)
Lemma written_collection_loads (env : Env) (pmc_ids : list string) :
  Search.store_lines ∅
    (Search.lines (Search.translate_newlines (Spec.written env pmc_ids)))
  = Return (Spec.stored_docs env pmc_ids ∅)
  /\ Spec.sliceable (Spec.stored_docs env pmc_ids ∅) = true.
Proof.
  split; [apply load_written|].
  apply stored_docs_sliceable. apply sliceable_spec, map_Forall_empty.
Qed.

(** X23. The two halves together: after a run of the writer in which no
    record fetch raises, the query runner loads what was written and
    returns a result for every hit of the searcher. *)
Lemma search_after_download (env : Env) (query terms : string) (w : World)
    (pmc_ids : list string) (hits : list Hit) :
  (fetch_pmc_ids env terms 500 w).1 = Return pmc_ids ->
  pmc_ids <> [] ->
  collection_writable env = true ->
  Forall (fun pmc_id => Spec.answers env pmc_id = true) pmc_ids ->
  searcher env (Py.join " " (extract_keywords env query)) Search.TOP_K = Return hits ->
  exists w1 w2,
    download_pmc_articles_for_pyserini env terms 500 w = (Return tt, w1)
    /\ Search.run_search env query w1
       = (Return (Some (Search.results_from (Spec.stored_docs env pmc_ids ∅) 0 hits)), w2).
Proof.
  intros Hids Hne Hopen Hans Hsearch.
  destruct (download_writes env terms 500 w pmc_ids Hids Hne Hopen Hans) as (w1 & Hrun & Hfile).
  destruct (written_collection_loads env pmc_ids) as (Hload & Hslice).
  destruct (run_search_results env query _ w1 _ hits Hfile Hload Hsearch Hslice)
    as (w2 & Hquery).
  by exists w1, w2.
Qed.

End Writer.

(** ** Where the writer departs from its description *)

Section Defects.

(** A record fetch that raises ends the turn of the loop with the
    exception, and the file as it was. *)
Lemma process_id_raises (env : Env) (pmc_id : string) (w : World) :
  Spec.fetch_exception env pmc_id <> None ->
  exists e w',
    Spec.fetch_exception env pmc_id = Some e
    /\ process_id env pmc_id w = (Raise e, w')
    /\ collection w' = collection w.
Proof.
  unfold Spec.fetch_exception, process_id, fetch_pmc_full_text, requests_get, fromstring.
  intros Hexn.
  destruct (efetch env pmc_id) as [|response].
  - run. eexists _, _. split; [reflexivity|]. split; reflexivity.
  - run. destruct (status_code response =? 200)%Z; [|done].
    destruct (decoded response); [done|].
    eexists _, _. split; [reflexivity|]. split; reflexivity.
Qed.

(** The exception leaves the loop: the identifiers after the failing one
    are not processed, and the file keeps the lines written before. *)
Lemma for_each_raises (env : Env) (before : list string) (pmc_id : string)
    (after : list string) :
  Forall (fun i => Spec.answers env i = true) before ->
  Spec.fetch_exception env pmc_id <> None ->
  forall (w : World) (text : string),
    collection w = Some text ->
    exists e w',
      Spec.fetch_exception env pmc_id = Some e
      /\ for_each (before ++ pmc_id :: after) (process_id env) w = (Raise e, w')
      /\ collection w' = Some (text +:+ Spec.written env before).
Proof.
  intros Hbefore Hexn.
  induction Hbefore as [|i before Hans _ IH]; intros w text Hfile.
  - destruct (process_id_raises env pmc_id w Hexn) as (e & w' & He & Hstep & Hfile').
    exists e, w'. split; [done|]. split.
    + simpl. by apply bind_raises.
    + simpl. rewrite append_empty. congruence.
  - destruct (process_id_collection env i w Hans) as (w1 & Hstep & Hfile1).
    rewrite Hfile in Hfile1. cbn [default] in Hfile1.
    simpl app. simpl for_each. rewrite (bind_step _ _ _ _ _ Hstep).
    simpl Spec.written.
    destruct (Spec.doc_of env i) as [doc|];
      destruct (IH w1 _ Hfile1) as (e & w2 & He & Hrest & Hfile2);
      exists e, w2; (split; [done|]); (split; [done|]).
    + rewrite Hfile2. by rewrite !append_assoc.
    + done.
Qed.

(** X15. A record fetch that raises ends the writer with that
    exception: the identifiers after it are not processed, and the file
    keeps the lines written for the identifiers before it. *)
Lemma download_raises (env : Env) (query : string) (max_results : Z) (w : World)
    (before : list string) (pmc_id : string) (after : list string) :
  (fetch_pmc_ids env query max_results w).1 = Return (before ++ pmc_id :: after) ->
  collection_writable env = true ->
  Forall (fun i => Spec.answers env i = true) before ->
  Spec.fetch_exception env pmc_id <> None ->
  exists e w',
    Spec.fetch_exception env pmc_id = Some e
    /\ download_pmc_articles_for_pyserini env query max_results w = (Raise e, w')
    /\ collection w' = Some (Spec.written env before).
Proof.
  intros Hids Hopen Hbefore Hexn. unfold download_pmc_articles_for_pyserini.
  destruct (fetch_pmc_ids env query max_results w) as [r w1] eqn:Hfetch.
  simpl in Hids. subst r.
  rewrite (bind_step _ _ _ _ _ Hfetch).
  destruct (before ++ pmc_id :: after) as [|i ids] eqn:Hlist.
  { by destruct before. }
  run. unfold open_collection. rewrite Hopen.
  erewrite bind_step; [|reflexivity].
  rewrite <- Hlist.
  match goal with |- context [(for_each _ _ ≫= _) ?w2] =>
    destruct (for_each_raises env before pmc_id after Hbefore Hexn w2 "" eq_refl)
      as (e & w3 & He & Hloop & Hfile) end.
  exists e, w3. split; [done|]. split; [apply bind_raises, Hloop|exact Hfile].
Qed.

(** An article whose text has the word Error in it is never written,
    however well its fetch went. *)
Lemma error_word_never_written (env : Env) (pmc_id : string) (root : Element) :
  efetch env pmc_id = Answer {| status_code := 200; decoded := Some root |} ->
  Py.contains "Error" (Normalizer.body_of root) = true ->
  Spec.answers env pmc_id = true /\ Spec.doc_of env pmc_id = None.
Proof.
  intros Hfetch Hword. unfold Spec.answers, Spec.doc_of, Normalizer.normalize, skipped.
  rewrite Hfetch. cbn [status_code decoded]. by rewrite Hword.
Qed.


(** Two record fetches with no pause between them make a trace that is
    not throttled, whatever comes before and after. *)
Lemma unthrottled_from (mid : list Event) :
  Forall (fun ev => match ev with Sleep _ => False | _ => True end) mid ->
  forall y after, Spec.throttled_from false (mid ++ Efetch y :: after) = false.
Proof.
  induction 1 as [|ev mid Hev _ IH]; intros y after; [done|].
  destruct ev; try done; simpl; apply IH.
Qed.

Lemma unthrottled (before mid after : list Event) (x y : string) :
  Forall (fun ev => match ev with Sleep _ => False | _ => True end) mid ->
  Spec.throttled (before ++ Efetch x :: mid ++ Efetch y :: after) = false.
Proof.
  intros Hmid. unfold Spec.throttled. generalize true as paused.
  induction before as [|ev before IH]; intros paused.
  - simpl. rewrite unthrottled_from by done. apply andb_false_r.
  - destruct ev; simpl; rewrite ?IH; by rewrite ?andb_false_r.
Qed.

Ltac finish_trace :=
  rewrite ?print_returns, ?emit_returns; cbn [snd trace];
  repeat (rewrite <- app_assoc; simpl); eexists; reflexivity.

(** Every turn of the loop starts with its message and its fetch. *)
Lemma process_id_trace (env : Env) (pmc_id : string) (w : World) :
  exists events,
    trace (process_id env pmc_id w).2
    = trace w ++ Print (Processing pmc_id) :: Efetch pmc_id :: events.
Proof.
  unfold process_id, fetch_pmc_full_text, requests_get, fromstring.
  destruct (efetch env pmc_id) as [|response].
  - run. finish_trace.
  - run. destruct (status_code response =? 200)%Z.
    + destruct (decoded response) as [root|].
      * unfold Normalizer.normalize. run.
        destruct (skipped _ _).
        -- finish_trace.
        -- erewrite bind_step; [|reflexivity]. run. finish_trace.
      * finish_trace.
    + run. finish_trace.
Qed.

Lemma for_each_trace (env : Env) (pmc_ids : list string) :
  forall w, exists events,
    trace (for_each pmc_ids (process_id env) w).2 = trace w ++ events.
Proof.
  induction pmc_ids as [|pmc_id pmc_ids IH]; intros w.
  - exists []. simpl. by rewrite app_nil_r.
  - destruct (process_id_trace env pmc_id w) as (events & Hstep).
    simpl for_each. unfold mbind, M_bind.
    destruct (process_id env pmc_id w) as [[[]|e] w1]; simpl in Hstep |- *.
    + destruct (IH w1) as (events' & Hrest). rewrite Hrest, Hstep.
      eexists. rewrite <- app_assoc. reflexivity.
    + rewrite Hstep. by eexists.
Qed.

(** The loop after a skipped identifier: the next fetch comes with no
    pause since the one before, so the trace of the run is not
    throttled. *)
Lemma skip_then_fetch_unthrottled (env : Env) (pmc_id next : string)
    (after : list string) (response : Response Element) (w : World) :
  efetch env pmc_id = Answer response ->
  status_code response <> 200%Z ->
  Spec.throttled
    (trace (for_each (pmc_id :: next :: after) (process_id env) w).2) = false.
Proof.
  intros Hreply Hstatus.
  assert (process_id env pmc_id w
          = (Return tt,
             {| trace := trace w ++ [Print (Processing pmc_id); Efetch pmc_id;
                                      Print (Skipping pmc_id)];
                collection := collection w;
                results_file := results_file w |})) as Hstep.
  { unfold process_id, fetch_pmc_full_text, requests_get. rewrite Hreply. run.
    destruct (Z.eqb_spec (status_code response) 200) as [?|_]; [done|].
    run. cbn [skipped]. rewrite print_returns. cbn [trace collection results_file].
    repeat (rewrite <- app_assoc; simpl). reflexivity. }
  change (for_each (pmc_id :: next :: after) (process_id env) w)
    with ((process_id env pmc_id ≫= fun _ => for_each (next :: after) (process_id env)) w).
  rewrite (bind_step _ _ _ _ _ Hstep).
  match goal with |- context [for_each _ _ ?w1] =>
    destruct (process_id_trace env next w1) as (events & Hnext);
    change (for_each (next :: after) (process_id env) w1)
      with ((process_id env next ≫= fun _ => for_each after (process_id env)) w1);
    unfold mbind, M_bind;
    destruct (process_id env next w1) as [[[]|e] w2]
  end; simpl in Hnext |- *.
  - destruct (for_each_trace env after w2) as (events' & ->). rewrite Hnext.
    pose proof (unthrottled (trace w ++ [Print (Processing pmc_id)])
                  [Print (Skipping pmc_id); Print (Processing next)] (events ++ events')
                  pmc_id next) as Hu.
    rewrite <- !app_assoc in Hu. cbn [app] in Hu.
    repeat (rewrite <- app_assoc; cbn [app]).
    apply Hu. by repeat constructor.
  - rewrite Hnext.
    pose proof (unthrottled (trace w ++ [Print (Processing pmc_id)])
                  [Print (Skipping pmc_id); Print (Processing next)] events
                  pmc_id next) as Hu.
    rewrite <- !app_assoc in Hu. cbn [app] in Hu.
    repeat (rewrite <- app_assoc; cbn [app]).
    apply Hu. by repeat constructor.
Qed.

End Defects.

(** ** The lookup in full *)

Section Lookup.

Import Run.

(** X2. The lookup asks the service once, before it prints anything,
    and never again: everything else it does is printing. *)
Theorem lookup_asks_once (env : Env) (query : string) (max_results : Z) (w : World) :
  exists messages,
    trace (fetch_pmc_ids env query max_results w).2
    = trace w ++ Esearch query max_results :: messages
    /\ forallb is_print messages = true.
Proof.
  unfold fetch_pmc_ids, try_except, requests_get, response_json, print, emit, raise.
  unfold mbind, M_bind, mret, M_ret. simpl.
  destruct (esearch env query max_results) as [|response]; simpl.
  { eexists. rewrite <- app_assoc. split; reflexivity. }
  destruct (status_code response =? 200)%Z; simpl.
  - destruct (decoded response); simpl;
      eexists; repeat (rewrite <- app_assoc; cbn [app]); split; reflexivity.
  - eexists. repeat (rewrite <- app_assoc; cbn [app]). split; reflexivity.
Qed.

End Lookup.


(** ** Fields of a record *)

Section Normalized.

Import Normalizer Run.












Lemma remove_invalid_filter (s : string) :
  list_ascii_of_string (remove_invalid s)
  = List.filter (fun c => negb (existsb (Ascii.eqb c) invalid)) (list_ascii_of_string s).
Proof.
  induction s as [|c s IH]; [done|].
  cbn [remove_invalid list_ascii_of_string List.filter]. fold invalid.
  destruct (existsb (Ascii.eqb c) invalid); cbn [negb]; [exact IH|].
  cbn [list_ascii_of_string]. by rewrite IH.
Qed.

(** X7. The title cleaner deletes the nine characters that a file name
    cannot hold and nothing else: the cleaned title is the title with
    every occurrence of these characters taken out, the other
    characters staying in their order; a missing title is cleaned to a
    fixed name. *)
Theorem clean_title_deletes_invalid (t : string) :
  list_ascii_of_string (clean_title (Some t))
  = List.filter (fun c => negb (existsb (Ascii.eqb c) Run.invalid)) (list_ascii_of_string t)
  /\ clean_title None = "untitled".
Proof. split; [apply remove_invalid_filter|reflexivity]. Qed.

End Normalized.

(** ** The test of the writer *)

Section Skips.

Lemma startswith_spec (p s : string) :
  Py.startswith p s = true <-> exists post, s = p +:+ post.
Proof.
  revert s. induction p as [|a p IH]; intros s.
  - split; [intros _; by exists s|done].
  - destruct s as [|b s]; simpl.
    + split; [done|]. intros (post & H). rewrite append_cons in H. discriminate.
    + rewrite andb_true_iff, IH. split.
      * intros (Hab & post & ->). apply Ascii.eqb_eq in Hab as ->.
        exists post. by rewrite append_cons.
      * intros (post & H). rewrite append_cons in H. injection H as -> ->.
        split; [apply Ascii.eqb_refl|by exists post].
Qed.

Lemma contains_spec (needle hay : string) :
  Py.contains needle hay = true <-> exists pre post, hay = pre +:+ needle +:+ post.
Proof.
  induction hay as [|c hay IH].
  - simpl. rewrite orb_false_r, startswith_spec. split.
    + intros (post & H). by exists "", post.
    + intros (pre & post & H). destruct pre as [|? pre].
      * rewrite append_nil in H. by exists post.
      * rewrite append_cons in H. discriminate.
  - cbn [Py.contains]. rewrite orb_true_iff, startswith_spec, IH. split.
    + intros [(post & H)|(pre & post & H)].
      * by exists "", post.
      * exists (String c pre), post. by rewrite append_cons, H.
    + intros (pre & post & H). destruct pre as [|c' pre].
      * left. exists post. by rewrite append_nil in H.
      * right. rewrite append_cons in H. injection H as -> ->. by exists pre, post.
Qed.

(** X8. The writer skips a record exactly when the fetch gave no
    metadata, or the text holds the word Error somewhere, or it holds
    the words Full text not available somewhere. *)
Theorem skipped_by_substring (metadata : option Metadata) (full_text : string) :
  skipped metadata full_text = true
  <-> metadata = None
      \/ (exists pre post, full_text = pre +:+ "Error" +:+ post)
      \/ (exists pre post, full_text = pre +:+ "Full text not available" +:+ post).
Proof.
  unfold skipped. destruct metadata as [m|].
  - rewrite orb_true_iff, !contains_spec. split; [tauto|].
    intros [?|?]; [done|tauto].
  - split; [by left|done].
Qed.

End Skips.


(** ** Runs of the writer *)

Section WriterRun.

Import Run.

Lemma process_id_turn (env : Env) (pmc_id : string) (w : World) :
  Spec.answers env pmc_id = true ->
  process_id env pmc_id w
  = (Return tt,
     {| trace := trace w ++ turn_events env pmc_id;
        collection :=
          match Spec.doc_of env pmc_id with
          | Some doc => Some (default "" (collection w) +:+ line_of doc)
          | None => collection w
          end;
        results_file := results_file w |}).
Proof.
  unfold Spec.answers, turn_events, Spec.doc_of, process_id, fetch_pmc_full_text,
    requests_get, fromstring, line_of.
  intros Hans.
  destruct (efetch env pmc_id) as [|response]; [done|].
  run.
  destruct (status_code response =? 200)%Z.
  - destruct (decoded response) as [root|]; [|simpl in Hans; done].
    unfold Normalizer.normalize. run.
    destruct (skipped (Some (Normalizer.metadata_of pmc_id root)) (Normalizer.body_of root)).
    + rewrite print_returns. cbn [trace collection results_file].
      repeat (rewrite <- app_assoc; cbn [app]). reflexivity.
    + erewrite bind_step; [|reflexivity]. run. rewrite emit_returns.
      cbn [trace collection results_file].
      repeat (rewrite <- app_assoc; cbn [app]). reflexivity.
  - run. cbn [skipped]. rewrite print_returns. cbn [trace collection results_file].
    repeat (rewrite <- app_assoc; cbn [app]). reflexivity.
Qed.

Lemma for_each_turns (env : Env) (pmc_ids : list string) :
  Forall (fun pmc_id => Spec.answers env pmc_id = true) pmc_ids ->
  forall (w : World) (text : string),
    collection w = Some text ->
    for_each pmc_ids (process_id env) w
    = (Return tt,
       {| trace := trace w ++ flat_map (turn_events env) pmc_ids;
          collection := Some (text +:+ Spec.written env pmc_ids);
          results_file := results_file w |}).
Proof.
  induction 1 as [|pmc_id pmc_ids Hans _ IH]; intros w text Hfile.
  - simpl. rewrite app_nil_r, append_empty, <- Hfile. by destruct w.
  - simpl for_each. rewrite (bind_step _ _ _ _ _ (process_id_turn env pmc_id w Hans)).
    rewrite Hfile. cbn [default]. simpl Spec.written. unfold line_of.
    destruct (Spec.doc_of env pmc_id) as [doc|].
    + erewrite IH by reflexivity. cbn [trace results_file]. simpl flat_map.
      rewrite <- !app_assoc, !append_assoc. reflexivity.
    + erewrite IH by reflexivity. cbn [trace results_file]. simpl flat_map.
      rewrite <- !app_assoc. reflexivity.
Qed.

(** A whole run of the writer in which the lookup gives identifiers, the
    file can be opened and no record fetch raises. *)
Lemma download_run (env : Env) (query : string) (max_results : Z) (w w1 : World)
    (pmc_ids : list string) :
  fetch_pmc_ids env query max_results w = (Return pmc_ids, w1) ->
  pmc_ids <> [] ->
  collection_writable env = true ->
  Forall (fun pmc_id => Spec.answers env pmc_id = true) pmc_ids ->
  download_pmc_articles_for_pyserini env query max_results w
  = (Return tt,
     {| trace := trace w1 ++ Print (FoundArticles (length pmc_ids))
                   :: flat_map (turn_events env) pmc_ids
                   ++ [Print (SavedEntries (length pmc_ids))];
        collection := Some (Spec.written env pmc_ids);
        results_file := results_file w1 |}).
Proof.
  intros Hfetch Hne Hopen Hans. unfold download_pmc_articles_for_pyserini.
  rewrite (bind_step _ _ _ _ _ Hfetch).
  destruct pmc_ids as [|pmc_id pmc_ids]; [done|].
  run. unfold open_collection. rewrite Hopen.
  erewrite bind_step; [|reflexivity].
  erewrite bind_step; [|by apply for_each_turns].
  rewrite print_returns. cbn [trace collection results_file].
  repeat (rewrite <- app_assoc; cbn [app]). reflexivity.
Qed.


Lemma lines_written (env : Env) (pmc_ids : list string) :
  Search.lines (Search.translate_newlines (Spec.written env pmc_ids))
  = map line_of (kept_docs env pmc_ids).
Proof.
  induction pmc_ids as [|pmc_id pmc_ids IH]; [done|].
  simpl Spec.written. unfold kept_docs. simpl omap. fold (kept_docs env pmc_ids).
  destruct (Spec.doc_of env pmc_id) as [doc|]; [|exact IH].
  rewrite translate_no_break by apply no_break_dumps.
  change (Py.nl +:+ ?x) with (String Search.lf x).
  change (Search.translate_newlines (String Search.lf ?x))
    with (String Search.lf (Search.translate_newlines x)).
  rewrite lines_no_break by apply no_break_dumps.
  simpl map. by rewrite IH.
Qed.

(** The lookup makes neither a record fetch nor a pause. *)
Lemma lookup_quiet (env : Env) (query : string) (max_results : Z) (w : World) :
  exists events,
    trace (fetch_pmc_ids env query max_results w).2 = trace w ++ events
    /\ forallb quiet events = true.
Proof.
  unfold fetch_pmc_ids, try_except, requests_get, response_json, print, emit, raise.
  unfold mbind, M_bind, mret, M_ret. simpl.
  destruct (esearch env query max_results) as [|response]; simpl.
  { eexists. rewrite <- app_assoc. split; reflexivity. }
  destruct (status_code response =? 200)%Z; simpl.
  - destruct (decoded response); simpl;
      eexists; repeat (rewrite <- app_assoc; cbn [app]); split; reflexivity.
  - eexists. repeat (rewrite <- app_assoc; cbn [app]). split; reflexivity.
Qed.

Lemma id_lookup_collection (env : Env) (query : string) (max_results : Z) (w : World) :
  collection (fetch_pmc_ids env query max_results w).2 = collection w.
Proof.
  unfold fetch_pmc_ids, try_except, requests_get, response_json, print, emit, raise.
  unfold mbind, M_bind, mret, M_ret. simpl.
  destruct (esearch env query max_results) as [|response]; simpl; [done|].
  destruct (status_code response =? 200)%Z; simpl; [|done].
  by destruct (decoded response).
Qed.

Lemma fetches_app (a b : list Event) : fetches (a ++ b) = fetches a ++ fetches b.
Proof. unfold fetches. by rewrite flat_map_app. Qed.

Lemma fetches_quiet (events : list Event) :
  forallb quiet events = true -> fetches events = [].
Proof.
  induction events as [|ev events IH]; [done|].
  simpl. intros [Hev Hrest]%andb_true_iff. rewrite (IH Hrest).
  by destruct ev.
Qed.

Lemma fetches_turns (env : Env) (pmc_ids : list string) :
  fetches (flat_map (turn_events env) pmc_ids) = pmc_ids.
Proof.
  induction pmc_ids as [|pmc_id pmc_ids IH]; [done|].
  change (flat_map (turn_events env) (pmc_id :: pmc_ids))
    with (turn_events env pmc_id ++ flat_map (turn_events env) pmc_ids).
  rewrite fetches_app, IH. unfold turn_events.
  by destruct (Spec.doc_of env pmc_id).
Qed.

Lemma throttled_from_quiet (events rest : list Event) (paused : bool) :
  forallb quiet events = true ->
  Spec.throttled_from paused (events ++ rest) = Spec.throttled_from paused rest.
Proof.
  induction events as [|ev events IH]; [done|].
  simpl. intros [Hev Hrest]%andb_true_iff. destruct ev; try done; by apply IH.
Qed.

Lemma throttled_turns (env : Env) (pmc_ids : list string) (rest : list Event) :
  Forall (fun pmc_id => is_Some (Spec.doc_of env pmc_id)) pmc_ids ->
  Spec.throttled_from true (flat_map (turn_events env) pmc_ids ++ rest)
  = Spec.throttled_from true rest.
Proof.
  induction 1 as [|pmc_id pmc_ids [doc Hdoc] _ IH]; [done|].
  simpl flat_map. unfold turn_events at 1. rewrite Hdoc.
  simpl. exact IH.
Qed.


(** X9. A run of the writer in which the lookup gives identifiers, the
    file can be opened and no record fetch raises returns, and the file
    then holds exactly one line for each document kept, in the order of
    the identifiers: what the file held before is gone. *)
Theorem collection_lines (env : Env) (query : string) (max_results : Z) (w : World)
    (pmc_ids : list string) :
  (fetch_pmc_ids env query max_results w).1 = Return pmc_ids ->
  pmc_ids <> [] ->
  collection_writable env = true ->
  Forall (fun pmc_id => Spec.answers env pmc_id = true) pmc_ids ->
  exists w' text,
    download_pmc_articles_for_pyserini env query max_results w = (Return tt, w')
    /\ collection w' = Some text
    /\ Search.lines (Search.translate_newlines text) = map line_of (kept_docs env pmc_ids).
Proof.
  intros Hids Hne Hopen Hans.
  destruct (fetch_pmc_ids env query max_results w) as [r w1] eqn:Hfetch.
  simpl in Hids. subst r.
  eexists _, _. split; [exact (download_run _ _ _ _ _ _ Hfetch Hne Hopen Hans)|].
  split; [reflexivity|apply lines_written].
Qed.

Lemma collection_lines_witness :
  exists w' text,
    download_pmc_articles_for_pyserini Sample.second_fails "diet" 5 Cases.w_old
    = (Return tt, w')
    /\ collection w' = Some text
    /\ Search.lines (Search.translate_newlines text)
       = map line_of (kept_docs Sample.second_fails ["100"; "200"]).
Proof.
  apply (collection_lines Sample.second_fails "diet" 5 Cases.w_old ["100"; "200"]).
  - reflexivity.
  - discriminate.
  - reflexivity.
  - repeat constructor.
Defined.

(** X10. In a run of the writer in which the lookup gives identifiers,
    the file can be opened and no record fetch raises, every identifier
    of the lookup is fetched exactly once, in the order of the lookup
    (an identifier listed twice is fetched twice), and nothing else is
    fetched. *)
Theorem fetches_follow_lookup (env : Env) (query : string) (max_results : Z) (w : World)
    (pmc_ids : list string) :
  (fetch_pmc_ids env query max_results w).1 = Return pmc_ids ->
  pmc_ids <> [] ->
  collection_writable env = true ->
  Forall (fun pmc_id => Spec.answers env pmc_id = true) pmc_ids ->
  fetches (trace (download_pmc_articles_for_pyserini env query max_results w).2)
  = fetches (trace w) ++ pmc_ids.
Proof.
  intros Hids Hne Hopen Hans.
  destruct (lookup_quiet env query max_results w) as (events & Htrace & Hquiet).
  destruct (fetch_pmc_ids env query max_results w) as [r w1] eqn:Hfetch.
  simpl in Hids, Htrace. subst r.
  rewrite (download_run _ _ _ _ _ _ Hfetch Hne Hopen Hans). cbn [snd trace].
  rewrite Htrace.
  change (Print (FoundArticles (length pmc_ids)) :: ?l)
    with ([Print (FoundArticles (length pmc_ids))] ++ l).
  rewrite !fetches_app, fetches_turns, (fetches_quiet _ Hquiet).
  simpl. by rewrite !app_nil_r.
Qed.

Lemma fetches_follow_lookup_witness :
  fetches
    (trace (download_pmc_articles_for_pyserini Sample.second_fails "diet" 5 Sample.w0).2)
  = fetches (trace Sample.w0) ++ ["100"; "200"].
Proof.
  apply (fetches_follow_lookup Sample.second_fails "diet" 5 Sample.w0 ["100"; "200"]).
  - reflexivity.
  - discriminate.
  - reflexivity.
  - repeat constructor.
Defined.

(** X11. A run of the writer in which the lookup gives identifiers,
    the file can be opened and every identifier is kept is throttled:
    in what the run adds to the trace, a pause of the owed length comes
    between any two record fetches. *)
Theorem kept_run_throttled (env : Env) (query : string) (max_results : Z) (w : World)
    (pmc_ids : list string) :
  (fetch_pmc_ids env query max_results w).1 = Return pmc_ids ->
  pmc_ids <> [] ->
  collection_writable env = true ->
  Forall (fun pmc_id => is_Some (Spec.doc_of env pmc_id)) pmc_ids ->
  exists events,
    trace (download_pmc_articles_for_pyserini env query max_results w).2
    = trace w ++ events
    /\ Spec.throttled events = true.
Proof.
  intros Hids Hne Hopen Hkept.
  assert (Forall (fun pmc_id => Spec.answers env pmc_id = true) pmc_ids) as Hans.
  { eapply Forall_impl; [exact Hkept|]. intros pmc_id [doc Hdoc]. simpl.
    unfold Spec.answers, Spec.doc_of in *.
    destruct (efetch env pmc_id) as [|response]; [done|].
    destruct (status_code response =? 200)%Z; [|done].
    by destruct (decoded response). }
  destruct (lookup_quiet env query max_results w) as (events & Htrace & Hquiet).
  destruct (fetch_pmc_ids env query max_results w) as [r w1] eqn:Hfetch.
  simpl in Hids, Htrace. subst r.
  rewrite (download_run _ _ _ _ _ _ Hfetch Hne Hopen Hans). cbn [snd trace].
  rewrite Htrace, <- app_assoc. eexists. split; [reflexivity|].
  unfold Spec.throttled.
  rewrite throttled_from_quiet by done.
  cbn [Spec.throttled_from]. by rewrite throttled_turns.
Qed.

Lemma kept_run_throttled_witness :
  exists events,
    trace (download_pmc_articles_for_pyserini Cases.both_kept "diet" 5 Sample.w0).2
    = trace Sample.w0 ++ events
    /\ Spec.throttled events = true.
Proof.
  apply (kept_run_throttled Cases.both_kept "diet" 5 Sample.w0 ["100"; "200"]).
  - reflexivity.
  - discriminate.
  - reflexivity.
  - repeat constructor; vm_compute; eauto.
Defined.

(** X12. The closing message of a run of the writer in which no record
    fetch raises gives the number of identifiers found, whatever the
    number of lines written: the lines are those of the documents kept,
    which can be fewer. *)
Theorem saved_message_counts_identifiers (env : Env) (query : string) (max_results : Z)
    (w : World) (pmc_ids : list string) :
  (fetch_pmc_ids env query max_results w).1 = Return pmc_ids ->
  pmc_ids <> [] ->
  collection_writable env = true ->
  Forall (fun pmc_id => Spec.answers env pmc_id = true) pmc_ids ->
  exists w' text,
    download_pmc_articles_for_pyserini env query max_results w = (Return tt, w')
    /\ last (trace w') = Some (Print (SavedEntries (length pmc_ids)))
    /\ collection w' = Some text
    /\ length (Search.lines (Search.translate_newlines text))
       = length (kept_docs env pmc_ids)
    /\ length (kept_docs env pmc_ids) <= length pmc_ids.
Proof.
  intros Hids Hne Hopen Hans.
  destruct (fetch_pmc_ids env query max_results w) as [r w1] eqn:Hfetch.
  simpl in Hids. subst r.
  eexists _, _. split; [exact (download_run _ _ _ _ _ _ Hfetch Hne Hopen Hans)|].
  cbn [trace collection].
  split; [|split; [reflexivity|split]].
  - change (Print (FoundArticles (length pmc_ids)) :: ?l)
      with ([Print (FoundArticles (length pmc_ids))] ++ l).
    by rewrite !app_assoc, last_snoc.
  - by rewrite lines_written, length_map.
  - unfold kept_docs. clear. induction pmc_ids as [|pmc_id pmc_ids IH]; [done|].
    cbn [omap list_omap]. fold (@omap list _ _ _ (Spec.doc_of env)).
    destruct (Spec.doc_of env pmc_id); cbn [length]; lia.
Qed.

Lemma saved_message_counts_identifiers_witness :
  exists w' text,
    download_pmc_articles_for_pyserini Sample.second_fails "diet" 5 Sample.w0
    = (Return tt, w')
    /\ last (trace w') = Some (Print (SavedEntries 2))
    /\ collection w' = Some text
    /\ length (Search.lines (Search.translate_newlines text))
       = length (kept_docs Sample.second_fails ["100"; "200"])
    /\ length (kept_docs Sample.second_fails ["100"; "200"]) <= 2.
Proof.
  apply (saved_message_counts_identifiers Sample.second_fails "diet" 5 Sample.w0
           ["100"; "200"]).
  - reflexivity.
  - discriminate.
  - reflexivity.
  - repeat constructor.
Defined.

(** X13. When the lookup gives no identifier the writer says so and
    returns: no record is fetched, and the collection file is neither
    created nor touched. *)
Theorem no_identifiers_no_file (env : Env) (query : string) (max_results : Z) (w : World) :
  (fetch_pmc_ids env query max_results w).1 = Return [] ->
  exists w',
    download_pmc_articles_for_pyserini env query max_results w = (Return tt, w')
    /\ collection w' = collection w
    /\ last (trace w') = Some (Print NoArticlesFound)
    /\ fetches (trace w') = fetches (trace w).
Proof.
  intros Hids.
  destruct (lookup_quiet env query max_results w) as (events & Htrace & Hquiet).
  pose proof (id_lookup_collection env query max_results w) as Hfile.
  destruct (fetch_pmc_ids env query max_results w) as [r w1] eqn:Hfetch.
  simpl in Hids, Htrace, Hfile. subst r.
  unfold download_pmc_articles_for_pyserini.
  rewrite (bind_step _ _ _ _ _ Hfetch). rewrite print_returns.
  eexists. split; [reflexivity|]. cbn [trace collection].
  split; [done|]. split; [by rewrite last_snoc|].
  rewrite Htrace, !fetches_app, (fetches_quiet _ Hquiet). simpl. by rewrite !app_nil_r.
Qed.

Lemma no_identifiers_no_file_witness :
  exists w',
    download_pmc_articles_for_pyserini Cases.nothing_found "diet" 5 Sample.w0
    = (Return tt, w')
    /\ collection w' = collection Sample.w0
    /\ last (trace w') = Some (Print NoArticlesFound)
    /\ fetches (trace w') = fetches (trace Sample.w0).
Proof.
  apply (no_identifiers_no_file Cases.nothing_found "diet" 5 Sample.w0).
  reflexivity.
Defined.

(** X14. When identifiers are found and the file cannot be opened, the
    writer ends with the error of the operating system: the count of
    identifiers has been announced, and no record has been fetched. *)
Theorem unwritable_collection_ends_run (env : Env) (query : string) (max_results : Z)
    (w : World) (pmc_ids : list string) :
  (fetch_pmc_ids env query max_results w).1 = Return pmc_ids ->
  pmc_ids <> [] ->
  collection_writable env = false ->
  exists w',
    download_pmc_articles_for_pyserini env query max_results w = (Raise OSError, w')
    /\ collection w' = collection w
    /\ last (trace w') = Some (Print (FoundArticles (length pmc_ids)))
    /\ fetches (trace w') = fetches (trace w).
Proof.
  intros Hids Hne Hopen.
  destruct (lookup_quiet env query max_results w) as (events & Htrace & Hquiet).
  pose proof (id_lookup_collection env query max_results w) as Hfile.
  destruct (fetch_pmc_ids env query max_results w) as [r w1] eqn:Hfetch.
  simpl in Hids, Htrace, Hfile. subst r.
  unfold download_pmc_articles_for_pyserini.
  rewrite (bind_step _ _ _ _ _ Hfetch).
  destruct pmc_ids as [|pmc_id pmc_ids]; [done|].
  run. unfold open_collection. rewrite Hopen.
  eexists. split; [reflexivity|]. cbn [trace collection].
  split; [done|]. split; [by rewrite last_snoc|].
  rewrite Htrace, !fetches_app, (fetches_quiet _ Hquiet). simpl. by rewrite !app_nil_r.
Qed.

Lemma unwritable_collection_ends_run_witness :
  exists w',
    download_pmc_articles_for_pyserini Cases.read_only "diet" 5 Sample.w0
    = (Raise OSError, w')
    /\ collection w' = collection Sample.w0
    /\ last (trace w') = Some (Print (FoundArticles 2))
    /\ fetches (trace w') = fetches (trace Sample.w0).
Proof.
  apply (unwritable_collection_ends_run Cases.read_only "diet" 5 Sample.w0 ["100"; "200"]).
  - reflexivity.
  - discriminate.
  - reflexivity.
Defined.

End WriterRun.

(** ** Failures, at sample runs *)

Section MoreFailures.

Lemma bad_status_is_skipped_witness :
  exists w',
    fetch_pmc_full_text Sample.second_fails "200" Sample.w0
    = (Return (None, Normalizer.error_retrieving), w')
    /\ collection w' = collection Sample.w0
    /\ skipped None Normalizer.error_retrieving = true.
Proof.
  apply (bad_status_is_skipped Sample.second_fails "200"
           {| status_code := 500; decoded := None |} Sample.w0).
  - reflexivity.
  - discriminate.
Defined.

Lemma download_raises_witness :
  exists e w',
    Spec.fetch_exception Sample.second_unreachable "200" = Some e
    /\ download_pmc_articles_for_pyserini Sample.second_unreachable "diet" 5 Sample.w0
       = (Raise e, w')
    /\ collection w' = Some (Spec.written Sample.second_unreachable ["100"]).
Proof.
  apply (download_raises Sample.second_unreachable "diet" 5 Sample.w0 ["100"] "200" []).
  - reflexivity.
  - reflexivity.
  - repeat constructor.
  - discriminate.
Defined.

End MoreFailures.

(** ** The query runner in full *)

Section QueryRunner.

Import Search.

Lemma report_files (result : SearchResult) (w : World) :
  collection (report result w).2 = collection w
  /\ results_file (report result w).2 = results_file w.
Proof.
  unfold report, print, emit, slice200, raise. unfold mbind, M_bind, mret, M_ret.
  destruct result as [? ? ? ? ? ? ? a|]; [|done].
  by destruct a.
Qed.

Lemma rank_hits_files raw_docs hits :
  forall i acc w,
    collection (rank_hits raw_docs i hits acc w).2 = collection w
    /\ results_file (rank_hits raw_docs i hits acc w).2 = results_file w.
Proof.
  induction hits as [|hit hits IH]; intros i acc w; [done|].
  cbn [rank_hits]. cbv zeta. unfold mbind, M_bind.
  destruct (report_files (result_for raw_docs i hit) w) as (Hc & Hr).
  destruct (report (result_for raw_docs i hit) w) as [[[]|e] w1]; [|done].
  simpl in Hc, Hr. rewrite <- Hc, <- Hr. apply IH.
Qed.

(** X20. The query runner only reads the collection file: whatever the
    file holds, whatever the searcher does, and whether the run returns
    or raises, the file is afterwards as it was. *)
Theorem search_keeps_collection (env : Env) (query : string) (w : World) :
  collection (run_search env query w).2 = collection w.
Proof.
  unfold run_search, try_except, load_metadata, save_results, print, emit.
  unfold mbind, M_bind, mret, M_ret. cbn [collection].
  destruct (collection w) as [text|] eqn:Hfile; [|done].
  destruct (store_lines ∅ (lines (translate_newlines text))) as [raw_docs|e];
    [|by destruct e].
  destruct (searcher env _ TOP_K) as [hits|e]; [|done].
  match goal with |- context [rank_hits raw_docs 0 hits [] ?w1] =>
    destruct (rank_hits_files raw_docs hits 0 [] w1) as (Hc & _);
    destruct (rank_hits raw_docs 0 hits [] w1) as [[results|e] w2] end;
    simpl in Hc |- *; [|exact Hc].
  destruct (results_writable env); exact Hc.
Qed.

(** X19. With the collection loaded and the hits at hand, what the query
    runner returns does not depend on whether the results file can be
    opened: when it can, the file receives the results returned; when it
    cannot, the failure is reported and the file is left alone. *)
Theorem results_saved_when_writable (env : Env) (query text : string) (w : World)
    (raw_docs : gmap string (list (string * json.value))) (hits : list Hit) :
  collection w = Some text ->
  store_lines ∅ (lines (translate_newlines text)) = Return raw_docs ->
  searcher env (Py.join " " (extract_keywords env query)) TOP_K = Return hits ->
  Spec.sliceable raw_docs = true ->
  exists w' before,
    run_search env query w = (Return (Some (results_from raw_docs 0 hits)), w')
    /\ results_file w'
       = (if results_writable env then Some (results_from raw_docs 0 hits)
          else results_file w)
    /\ trace w'
       = before ++ [Print (if results_writable env then ResultsSaved else SavingError);
                    Print TimeTaken].
Proof.
  intros Hfile Hload Hsearch Hs.
  unfold run_search. cbv zeta.
  rewrite (bind_step _ _ _ _ _ (print_returns _ w)).
  erewrite bind_step; cycle 1.
  { apply try_except_returns. erewrite bind_step; [reflexivity|].
    unfold load_metadata. cbn [collection]. by rewrite Hfile, Hload. }
  cbv beta iota. rewrite Hsearch.
  rewrite (bind_step _ _ _ _ _ (print_returns _ _)).
  match goal with |- context [rank_hits raw_docs 0 hits [] ≫= _] =>
    match goal with |- context [(_ ≫= _) ?w1 = _] =>
      destruct (rank_hits_results raw_docs hits Hs 0 [] w1) as (w2 & Hloop & _ & Hr) end end.
  rewrite (bind_step _ _ _ _ _ Hloop). rewrite app_nil_l.
  cbn [results_file] in Hr.
  unfold save_results.
  destruct (results_writable env).
  - erewrite bind_step; [|apply print_returns].
    rewrite (bind_step _ _ _ _ _ (print_returns _ _)).
    eexists _, _. split; [reflexivity|]. cbn [trace results_file].
    split; [reflexivity|]. by rewrite <- app_assoc.
  - erewrite bind_step; [|apply print_returns].
    rewrite (bind_step _ _ _ _ _ (print_returns _ _)).
    eexists _, _. split; [reflexivity|]. cbn [trace results_file].
    split; [exact Hr|]. by rewrite <- app_assoc.
Qed.

Lemma results_saved_when_writable_witness :
  exists w' before,
    run_search (Cases.no_results_file Sample.stray_hits) "fibre" Sample.w_three
    = (Return (Some (results_from Sample.three_map 0 Sample.stray_hits)), w')
    /\ results_file w' = results_file Sample.w_three
    /\ trace w' = before ++ [Print SavingError; Print TimeTaken].
Proof.
  apply (results_saved_when_writable (Cases.no_results_file Sample.stray_hits) "fibre"
           Sample.three_docs Sample.w_three Sample.three_map Sample.stray_hits).
  - reflexivity.
  - vm_compute; reflexivity.
  - reflexivity.
  - vm_compute; reflexivity.
Defined.

Lemma store_lines_app ls1 ls2 raw_docs :
  store_lines raw_docs (ls1 ++ ls2)
  = store_lines raw_docs ls1 ≫= fun raw_docs' => store_lines raw_docs' ls2.
Proof.
  revert raw_docs. induction ls1 as [|l ls1 IH]; intros raw_docs; [done|].
  simpl. destruct (store_line raw_docs l) as [m|e]; [|done].
  rewrite !bind_return. apply IH.
Qed.

(** X17. A line of the collection file that is a JSON object without an
    id ends the query runner with a key error: only a missing file and
    text that is not JSON are caught.  Nothing is printed after the
    keywords, and nothing is saved. *)
Theorem line_without_id_ends_search (env : Env) (query text : string) (w : World)
    (before after : list string) (line : string)
    (raw_docs : gmap string (list (string * json.value)))
    (pairs : list (string * json.value)) :
  collection w = Some text ->
  lines (translate_newlines text) = before ++ line :: after ->
  store_lines ∅ before = Return raw_docs ->
  json.loads line = Return (json.JObj pairs) ->
  get "id" pairs = None ->
  exists w',
    run_search env query w = (Raise KeyError, w')
    /\ results_file w' = results_file w
    /\ trace w' = trace w ++ [Print (ImportantKeywords (extract_keywords env query))].
Proof.
  intros Hfile Hlines Hbefore Hline Hid.
  unfold run_search. cbv zeta.
  rewrite (bind_step _ _ _ _ _ (print_returns _ w)).
  unfold try_except, load_metadata. unfold mbind at 1, M_bind at 1.
  unfold mbind at 1, M_bind at 1. cbn [collection].
  rewrite Hfile, Hlines, store_lines_app, Hbefore, bind_return.
  cbn [store_lines]. unfold store_line. rewrite Hline, bind_return, Hid.
  eexists. split; [reflexivity|]. split; reflexivity.
Qed.

Lemma line_without_id_ends_search_witness :
  exists w',
    run_search (Sample.env_hits Sample.two_hits) "fibre" Cases.w_no_id
    = (Raise KeyError, w')
    /\ results_file w' = results_file Cases.w_no_id
    /\ trace w' = trace Cases.w_no_id ++ [Print (ImportantKeywords ["fibre"])].
Proof.
  apply (line_without_id_ends_search (Sample.env_hits Sample.two_hits) "fibre"
           (json.dumps (Sample.stored "100" "Fibre") +:+ Py.nl
              +:+ "{}" +:+ Py.nl
              +:+ json.dumps (Sample.stored "300" "Sugar") +:+ Py.nl)
           Cases.w_no_id
           [json.dumps (Sample.stored "100" "Fibre") +:+ Py.nl]
           [json.dumps (Sample.stored "300" "Sugar") +:+ Py.nl]
           ("{}" +:+ Py.nl)
           (<["PMC100" := match Sample.stored "100" "Fibre" with
                          | json.JObj pairs => pairs
                          | _ => []
                          end]> ∅)
           []).
  - reflexivity.
  - vm_compute; reflexivity.
  - vm_compute; reflexivity.
  - vm_compute; reflexivity.
  - reflexivity.
Defined.

Lemma rank_hits_raises raw_docs (before : list Hit) (hit : Hit) (after : list Hit)
    (data : list (string * json.value)) :
  Forall (fun h => forall d, raw_docs !! docid h = Some d -> Spec.abstract_ok d = true)
    before ->
  raw_docs !! docid hit = Some data ->
  get "abstract" data = Some json.JNull ->
  forall i acc w,
  exists w', rank_hits raw_docs i (before ++ hit :: after) acc w = (Raise TypeError, w')
             /\ results_file w' = results_file w.
Proof.
  intros Hbefore Hk Habs.
  induction Hbefore as [|h before Hok _ IH]; intros i acc w.
  - cbn [app rank_hits]. cbv zeta. unfold result_for. rewrite Hk.
    destruct data as [|kv data]; [done|]. rewrite Habs. cbn [default].
    unfold report. run. cbn [slice200].
    eexists. split; [reflexivity|reflexivity].
  - destruct (report_returns raw_docs i h w Hok) as (w1 & Hrep & _ & Hr1).
    destruct (IH (S i) (acc ++ [result_for raw_docs i h]) w1) as (w2 & Hloop & Hr2).
    exists w2. split; [|congruence].
    cbn [app rank_hits]. cbv zeta. by rewrite (bind_step _ _ _ _ _ Hrep).
Qed.

(** X18. A hit on a stored document whose abstract is null ends the
    query runner with a type error, raised when the abstract is cut for
    printing: the results built so far are lost and nothing is saved. *)
Theorem null_abstract_ends_search (env : Env) (query text : string) (w : World)
    (raw_docs : gmap string (list (string * json.value)))
    (before : list Hit) (hit : Hit) (after : list Hit)
    (data : list (string * json.value)) :
  collection w = Some text ->
  store_lines ∅ (lines (translate_newlines text)) = Return raw_docs ->
  searcher env (Py.join " " (extract_keywords env query)) TOP_K
  = Return (before ++ hit :: after) ->
  Forall (fun h => forall d, raw_docs !! docid h = Some d -> Spec.abstract_ok d = true)
    before ->
  raw_docs !! docid hit = Some data ->
  get "abstract" data = Some json.JNull ->
  exists w',
    run_search env query w = (Raise TypeError, w')
    /\ results_file w' = results_file w.
Proof.
  intros Hfile Hload Hsearch Hbefore Hk Habs.
  unfold run_search. cbv zeta.
  rewrite (bind_step _ _ _ _ _ (print_returns _ w)).
  erewrite bind_step; cycle 1.
  { apply try_except_returns. erewrite bind_step; [reflexivity|].
    unfold load_metadata. cbn [collection]. by rewrite Hfile, Hload. }
  cbv beta iota. rewrite Hsearch.
  rewrite (bind_step _ _ _ _ _ (print_returns _ _)).
  match goal with |- context [(rank_hits raw_docs 0 _ [] ≫= _) ?w1] =>
    destruct (rank_hits_raises raw_docs before hit after data Hbefore Hk Habs 0 [] w1)
      as (w2 & Hloop & Hr) end.
  exists w2. split; [by apply bind_raises|exact Hr].
Qed.

Lemma null_abstract_ends_search_witness :
  exists w',
    run_search (Sample.env_hits Cases.hits_null_abstract) "fibre" Cases.w_null_abstract
    = (Raise TypeError, w')
    /\ results_file w' = results_file Cases.w_null_abstract.
Proof.
  apply (null_abstract_ends_search (Sample.env_hits Cases.hits_null_abstract) "fibre"
           (json.dumps (Sample.stored "100" "Fibre") +:+ Py.nl
              +:+ json.dumps (json.JObj Cases.null_abstract) +:+ Py.nl)
           Cases.w_null_abstract
           (<["PMC7" := Cases.null_abstract]>
              (<["PMC100" := match Sample.stored "100" "Fibre" with
                             | json.JObj pairs => pairs
                             | _ => []
                             end]> ∅))
           [{| docid := "PMC100"; score := 21 # 10 |}]
           {| docid := "PMC7"; score := 15 # 10 |}
           [{| docid := "PMC100"; score := 1 # 10 |}]
           Cases.null_abstract).
  - reflexivity.
  - vm_compute; reflexivity.
  - reflexivity.
  - repeat constructor. intros d. vm_compute. by intros [= <-].
  - vm_compute; reflexivity.
  - reflexivity.
Defined.

Lemma query_runner_fails_soft_witness :
  (exists w', run_search Cases.no_searcher "fibre" Sample.w0 = (Return None, w')
              /\ last (trace w') = Some (Print JsonlNotFound))
  /\ (exists w', run_search Cases.no_searcher "fibre" Cases.w_garbled = (Return None, w')
                 /\ last (trace w') = Some (Print InvalidJson))
  /\ (exists w', run_search Cases.no_searcher "fibre" Sample.w_three = (Return None, w')
                 /\ last (trace w') = Some (Print SearchErrorMsg)).
Proof.
  split; [|split].
  - destruct (query_runner_fails_soft Cases.no_searcher "fibre" Sample.w0) as (H & _).
    apply H. reflexivity.
  - destruct (query_runner_fails_soft Cases.no_searcher "fibre" Cases.w_garbled)
      as (_ & H & _).
    apply (H "not json"); [reflexivity|vm_compute; reflexivity].
  - destruct (query_runner_fails_soft Cases.no_searcher "fibre" Sample.w_three)
      as (_ & _ & H).
    apply (H Sample.three_docs Sample.three_map SearchFailure);
      [reflexivity|vm_compute; reflexivity|reflexivity].
Defined.

End QueryRunner.


(** ** The writer and the query runner together *)

Section EndToEnd.

Lemma pmc_key_injective (a b : string) : "PMC" +:+ a = "PMC" +:+ b -> a = b.
Proof. rewrite !append_cons, !append_nil. by intros [= ->]. Qed.

Lemma doc_of_is_dict (env : Env) (pmc_id : string) (doc : json.value) :
  Spec.doc_of env pmc_id = Some doc -> exists pairs, doc = json.JObj pairs.
Proof.
  intros Hdoc. destruct (doc_of_make_doc env pmc_id doc Hdoc) as (m & t & ->).
  by eexists.
Qed.

Lemma stored_docs_kept (env : Env) (pmc_ids : list string) (pmc_id : string)
    (pairs : list (string * json.value)) :
  In pmc_id pmc_ids ->
  Spec.doc_of env pmc_id = Some (json.JObj pairs) ->
  forall raw_docs, Spec.stored_docs env pmc_ids raw_docs !! ("PMC" +:+ pmc_id) = Some pairs.
Proof.
  intros Hin Hdoc.
  assert (forall ids raw_docs,
            raw_docs !! ("PMC" +:+ pmc_id) = Some pairs ->
            Spec.stored_docs env ids raw_docs !! ("PMC" +:+ pmc_id) = Some pairs) as Hkeep.
  { induction ids as [|i ids IH]; intros raw_docs Hk; [done|].
    simpl. destruct (Spec.doc_of env i) as [doc|] eqn:Hi; [|by apply IH].
    destruct (doc_of_is_dict env i doc Hi) as (pairs' & ->).
    apply IH. destruct (decide (i = pmc_id)) as [->|Hne].
    - rewrite Hdoc in Hi. injection Hi as <-. by rewrite lookup_insert_eq.
    - rewrite lookup_insert_ne; [done|]. intros Heq. by apply pmc_key_injective in Heq. }
  induction pmc_ids as [|i pmc_ids IH]; intros raw_docs; [done|].
  simpl. destruct Hin as [->|Hin].
  - rewrite Hdoc. apply Hkeep. by rewrite lookup_insert_eq.
  - destruct (Spec.doc_of env i) as [[| | | |]|]; by apply IH.
Qed.

Lemma stored_docs_origin (env : Env) (pmc_ids : list string) :
  forall raw_docs k pairs,
    Spec.stored_docs env pmc_ids raw_docs !! k = Some pairs ->
    raw_docs !! k = Some pairs
    \/ exists pmc_id, In pmc_id pmc_ids /\ k = "PMC" +:+ pmc_id
                      /\ Spec.doc_of env pmc_id = Some (json.JObj pairs).
Proof.
  induction pmc_ids as [|i pmc_ids IH]; intros raw_docs k pairs Hk; [by left|].
  simpl in Hk.
  destruct (Spec.doc_of env i) as [doc|] eqn:Hi.
  - destruct (doc_of_is_dict env i doc Hi) as (pairs' & ->).
    destruct (IH _ _ _ Hk) as [Hk'|(j & Hin & -> & Hj)].
    + destruct (decide ("PMC" +:+ i = k)) as [<-|Hne].
      * rewrite lookup_insert_eq in Hk'. injection Hk' as ->.
        right. exists i. split; [by left|done].
      * rewrite lookup_insert_ne in Hk' by done. by left.
    + right. exists j. split; [by right|done].
  - destruct (IH _ _ _ Hk) as [Hk'|(j & Hin & -> & Hj)]; [by left|].
    right. exists j. split; [by right|done].
Qed.

(** X21. What the writer writes, the query runner reads back: the lines
    written for a list of identifiers load into a map that holds the
    document of every identifier kept under the letters PMC followed by
    the identifier, and holds nothing else. *)
Theorem collection_round_trip (env : Env) (pmc_ids : list string) :
  exists raw_docs,
    Search.store_lines ∅
      (Search.lines (Search.translate_newlines (Spec.written env pmc_ids)))
    = Return raw_docs
    /\ (forall pmc_id pairs,
          In pmc_id pmc_ids ->
          Spec.doc_of env pmc_id = Some (json.JObj pairs) ->
          raw_docs !! ("PMC" +:+ pmc_id) = Some pairs)
    /\ (forall k pairs,
          raw_docs !! k = Some pairs ->
          exists pmc_id, In pmc_id pmc_ids /\ k = "PMC" +:+ pmc_id
                         /\ Spec.doc_of env pmc_id = Some (json.JObj pairs)).
Proof.
  exists (Spec.stored_docs env pmc_ids ∅).
  split; [apply load_written|]. split.
  - intros pmc_id pairs Hin Hdoc. by apply stored_docs_kept.
  - intros k pairs Hk. destruct (stored_docs_origin env pmc_ids _ _ _ Hk) as [Hk'|H]; [|done].
    by rewrite lookup_empty in Hk'.
Qed.



Lemma search_after_download_witness :
  exists w1 w2,
    download_pmc_articles_for_pyserini Cases.found_and_searched "fibre" 500 Sample.w0
    = (Return tt, w1)
    /\ Search.run_search Cases.found_and_searched "fibre" w1
       = (Return
            (Some
               (Search.results_from
                  (Spec.stored_docs Cases.found_and_searched ["100"; "200"] ∅) 0
                  [{| docid := "PMC200"; score := 21 # 10 |};
                   {| docid := "PMC999"; score := 15 # 10 |}])), w2).
Proof.
  apply (search_after_download Cases.found_and_searched "fibre" "fibre" Sample.w0
           ["100"; "200"]).
  - reflexivity.
  - discriminate.
  - reflexivity.
  - repeat constructor.
  - reflexivity.
Defined.

End EndToEnd.
